(** * SignSpeak backend: a shallow embedding of [backend/app.py]

    The development follows the source file top to bottom: the Python
    helpers the handlers rely on ([str] membership and [split], [max] with a
    key, [np.max]/[np.argmax]), the Keras set-up (model table, label
    alphabets, threshold), [preprocess_image_for_keras], the
    [/api/interpret-sign] handler and the [/api/text-to-speech] handler.

    Conventions.
    - A Python [str] is a [string]; [bytes] is a [list byte].
    - A Python [float] is modelled by a rational ([Q]) and the literal
      [0.6] by 6/10; the model covers finite floats (no NaN, no
      infinities), compared with [Qle_bool].
    - Third-party code (the base64 decoder, PIL, Keras, gTTS) is not part of
      the repository: it enters through the class [Libs], so every theorem
      holds for whatever these collaborators compute.
    - [try/except] is modelled with the [outcome] type; a handler returns a
      JSON body together with the HTTP status. *)

From Stdlib Require Import QArith String Ascii List Lia.
From Stdlib.Strings Require Import Byte.
From stdpp Require Import gmap strings list fin_maps.

Open Scope string_scope.

(* ===================================================================== *)
(** ** Python built-ins used by the handlers                              *)
(* ===================================================================== *)

Module Py.

(** [s[n:]] *)
Fixpoint str_drop (n : nat) (s : string) : string :=
  match n, s with
  | O, _ => s
  | S _, EmptyString => EmptyString
  | S k, String _ s' => str_drop k s'
  end.

(** [sub in s] on strings: [sub] occurs somewhere in [s]. *)
Fixpoint str_contains (sub s : string) : bool :=
  String.prefix sub s ||
  match s with
  | EmptyString => false
  | String _ s' => str_contains sub s'
  end.

(** Leftmost occurrence of [sep] in [s]: the text before it and the text
    after it. *)
Fixpoint str_find (sep s : string) : option (string * string) :=
  if String.prefix sep s then Some (EmptyString, str_drop (String.length sep) s)
  else match s with
       | EmptyString => None
       | String c s' =>
           match str_find sep s' with
           | Some (a, b) => Some (String c a, b)
           | None => None
           end
       end.

(** [s.split(sep)] for a non-empty [sep]: cut at the occurrences of [sep],
    scanning from the left.  The recursion is on a counter; [String.length s]
    cuts are enough since each cut removes at least one character. *)
Fixpoint str_split_fuel (fuel : nat) (sep s : string) : list string :=
  match fuel with
  | O => [s]
  | S k =>
      match str_find sep s with
      | None => [s]
      | Some (a, b) => a :: str_split_fuel k sep b
      end
  end.

Definition str_split (sep s : string) : list string :=
  str_split_fuel (String.length s) sep s.

(** Exceptions, as far as the handlers tell them apart: the first [except]
    clause of a handler names [base64.binascii.Error], the second catches
    every other [Exception]. *)
Inductive exn : Type :=
| binascii_Error
| Exception.

Inductive outcome (A : Type) : Type :=
| Return (a : A)
| Raise (e : exn).
Arguments Return {A} a.
Arguments Raise {A} e.

Definition bind {A B : Type} (m : outcome A) (k : A -> outcome B) : outcome B :=
  match m with
  | Return a => k a
  | Raise e => Raise e
  end.

(** [l[i]] on a list raises [IndexError] out of range. *)
Definition index {A : Type} (l : list A) (i : nat) : outcome A :=
  match l !! i with
  | Some x => Return x
  | None => Raise Exception
  end.

(** [a < b] and [a >= b] on floats. *)
Definition Qltb (a b : Q) : bool := negb (Qle_bool b a).
Definition Qgeb (a b : Q) : bool := Qle_bool b a.

(** [max(l, key=key)]: the running maximum is replaced only by an item whose
    key is strictly greater, so among equal keys the first item is kept;
    an empty argument raises [ValueError]. *)
Fixpoint max_from {A : Type} (key : A -> Q) (best : A) (rest : list A) : A :=
  match rest with
  | [] => best
  | x :: rest' =>
      if Qltb (key best) (key x) then max_from key x rest'
      else max_from key best rest'
  end.

Definition max_key {A : Type} (key : A -> Q) (l : list A) : outcome A :=
  match l with
  | [] => Raise Exception
  | x :: rest => Return (max_from key x rest)
  end.

End Py.

#[global] Instance outcome_ret : MRet Py.outcome := @Py.Return.
#[global] Instance outcome_bind : MBind Py.outcome :=
  fun A B k m => Py.bind m k.

(* ===================================================================== *)
(** ** base64 (client side): the standard encoder                         *)
(* ===================================================================== *)

Module Base64.

Definition alphabet : list ascii :=
  list_ascii_of_string
    "ABCDEFGHIJKLMNOPQRSTUVWXYZabcdefghijklmnopqrstuvwxyz0123456789+/".

Definition char (n : N) : ascii := nth (N.to_nat n) alphabet "A"%char.

(** [base64.b64encode]: three bytes give four characters, a tail of one or
    two bytes is padded with ['=']. *)
Fixpoint b64encode (bs : list byte) : string :=
  match bs with
  | [] => EmptyString
  | [a] =>
      let x := Byte.to_N a in
      String (char (x / 4)) (String (char ((x mod 4) * 16)) "==")
  | [a; b] =>
      let x := Byte.to_N a in
      let y := Byte.to_N b in
      String (char (x / 4))
        (String (char ((x mod 4) * 16 + y / 16))
           (String (char ((y mod 16) * 4)) "="))
  | a :: b :: c :: rest =>
      let x := Byte.to_N a in
      let y := Byte.to_N b in
      let z := Byte.to_N c in
      String (char (x / 4))
        (String (char ((x mod 4) * 16 + y / 16))
           (String (char ((y mod 16) * 4 + z / 64))
              (String (char (z mod 64)) (b64encode rest))))
  end.

End Base64.

(* ===================================================================== *)
(** ** numpy arrays                                                       *)
(* ===================================================================== *)

Module Np.

(** An array is its shape and its elements in row-major order. *)
Record ndarray (A : Type) : Type := mk_ndarray {
  shape : list nat;
  data : list A
}.
Arguments mk_ndarray {A} shape data.
Arguments shape {A} n.
Arguments data {A} n.

(** [np.expand_dims(a, axis=-1)] and [np.expand_dims(a, axis=0)] *)
Definition expand_dims_last {A : Type} (a : ndarray A) : ndarray A :=
  mk_ndarray (shape a ++ [1%nat]) (data a).

Definition expand_dims_first {A : Type} (a : ndarray A) : ndarray A :=
  mk_ndarray (1%nat :: shape a) (data a).

(** [a.astype('float32') / 255.0] on an array of [uint8] *)
Definition intensity (b : byte) : Q := inject_Z (Z.of_N (Byte.to_N b)) / 255.

Definition astype_float32_div_255 (a : ndarray byte) : ndarray Q :=
  mk_ndarray (shape a) (map intensity (data a)).

(** Number of elements a shape announces. *)
Definition numel (sh : list nat) : nat := fold_right Nat.mul 1%nat sh.

(** [np.max(row)]: raises [ValueError] on an empty row. *)
Fixpoint max_from (m : Q) (rest : list Q) : Q :=
  match rest with
  | [] => m
  | x :: rest' => if Py.Qltb m x then max_from x rest' else max_from m rest'
  end.

Definition max (row : list Q) : option Q :=
  match row with
  | [] => None
  | x :: rest => Some (max_from x rest)
  end.

(** [np.argmax(row)]: the index of the first occurrence of the maximum.
    [i] is the index of the running maximum [m], [j] the index of the head
    of [rest]. *)
Fixpoint argmax_from (i : nat) (m : Q) (j : nat) (rest : list Q) : nat :=
  match rest with
  | [] => i
  | x :: rest' =>
      if Py.Qltb m x then argmax_from j x (S j) rest'
      else argmax_from i m (S j) rest'
  end.

Definition argmax (row : list Q) : option nat :=
  match row with
  | [] => None
  | x :: rest => Some (argmax_from 0 x 1 rest)
  end.

End Np.

(* ===================================================================== *)
(** ** PIL images                                                         *)
(* ===================================================================== *)

Module PIL.

Inductive Mode : Type := L | RGB | RGBA.

Definition bands (m : Mode) : nat :=
  match m with
  | L => 1
  | RGB => 3
  | RGBA => 4
  end.

(** A decoded image: its mode, its size [(width, height)] and the value of
    band [c] of the pixel at [(x, y)]. *)
Record Image : Type := mk_Image {
  mode : Mode;
  size : nat * nat;
  pixel : nat -> nat -> nat -> byte
}.

(** [np.array(img)]: [height x width] for a single-band image,
    [height x width x bands] otherwise, elements in row-major order. *)
Definition np_array (img : Image) : Np.ndarray byte :=
  let '(w, h) := size img in
  let c := bands (mode img) in
  Np.mk_ndarray
    (if (c =? 1)%nat then [h; w] else [h; w; c])
    (flat_map (fun y =>
       flat_map (fun x => map (fun k => pixel img x y k) (seq 0 c)) (seq 0 w))
       (seq 0 h)).

End PIL.

(* ===================================================================== *)
(** ** Collaborators outside the repository                               *)
(* ===================================================================== *)

(** A value of the JSON request body: a string, or anything else (number,
    boolean, null, array, object), on which the string operations of the
    handlers raise. *)
Inductive value : Type :=
| VStr (s : string)
| VOther.

(** A loaded Keras model: [model.predict(batch)] returns the rows of
    predictions, or raises. *)
Definition Model : Type := Np.ndarray Q -> option (list (list Q)).

(** The file system as the text-to-speech handler sees it. *)
Abbreviation FS := (gmap string (list byte)).

Class Libs : Type := {
  (** [base64.b64decode] *)
  b64decode : string -> Py.outcome (list byte);
  (** [Image.open(io.BytesIO(bytes))] together with the decoding PIL does
      lazily; [None] when it raises *)
  Image_open : list byte -> option PIL.Image;
  (** the pixels [img.resize(size)] computes *)
  resample : PIL.Image -> nat * nat -> nat -> nat -> nat -> byte;
  (** the pixels [img.convert(mode)] computes *)
  convert_pixels : PIL.Image -> PIL.Mode -> nat -> nat -> nat -> byte;
  (** [os.path.exists] on the model files *)
  path_exists : string -> bool;
  (** [tf.keras.models.load_model]; [None] when it raises *)
  load_model : string -> option Model;
  (** [gTTS(text=text, lang=language, slow=False)] followed by
      [tts.save(filename)]: what the two leave on the file system and
      whether they returned or raised *)
  gTTS_save : value -> string -> string -> FS -> FS * Py.outcome unit
}.

(* ===================================================================== *)
(** ** Keras model set-up                                                 *)
(* ===================================================================== *)

Definition MODEL_DIR : string := "models".

(** [os.path.join] *)
Definition path_join (dir file : string) : string := dir ++ "/" ++ file.

(** A [dict] literal iterates in the order it is written. *)
Definition MODEL_PATHS : list (string * string) :=
  [ ("digit", path_join MODEL_DIR "digitSignLanguage.h5");
    ("asl", path_join MODEL_DIR "americanSignLanguage.h5");
    ("isl", path_join MODEL_DIR "indianSignLanguage.h5") ].

Definition KERAS_CONFIDENCE_THRESHOLD : Q := 0.6.

(** The start-up loop: every name gets an entry, [None] when the file is
    missing or loading raised. *)
Definition load_models `{Libs} (paths : list (string * string))
  : list (string * option Model) :=
  map (fun '(name, path) =>
         (name, if path_exists path then load_model path else None))
      paths.

Definition models `{Libs} : list (string * option Model) :=
  load_models MODEL_PATHS.

Definition DIGIT_LABELS : list string :=
  ["0"; "1"; "2"; "3"; "4"; "5"; "6"; "7"; "8"; "9"].
Definition ASL_LABELS : list string :=
  ["A"; "B"; "C"; "D"; "E"; "F"; "G"; "H"; "I"; "K"; "L"; "M"; "N"; "O";
   "P"; "Q"; "R"; "S"; "T"; "U"; "V"; "W"; "X"; "Y"].
Definition ISL_LABELS : list string :=
  ["A"; "B"; "C"; "D"; "E"; "F"; "G"; "H"; "I"; "J"; "K"; "L"; "M"; "N";
   "O"; "P"; "Q"; "R"; "S"; "T"; "U"; "V"; "W"; "X"; "Y"; "Z"].

Definition LABEL_MAPS : gmap string (list string) :=
  <["digit" := DIGIT_LABELS]>
    (<["asl" := ASL_LABELS]> (<["isl" := ISL_LABELS]> ∅)).

(** [LABEL_MAPS.get(model_type, [])] *)
Definition LABEL_MAPS_get (model_type : string) : list string :=
  default [] (LABEL_MAPS !! model_type).

(* ===================================================================== *)
(** ** [preprocess_image_for_keras]                                       *)
(* ===================================================================== *)

Definition resize `{Libs} (img : PIL.Image) (sz : nat * nat) : PIL.Image :=
  PIL.mk_Image (PIL.mode img) sz (resample img sz).

Definition convert `{Libs} (img : PIL.Image) (m : PIL.Mode) : PIL.Image :=
  PIL.mk_Image m (PIL.size img) (convert_pixels img m).

(** [None] is the [return None] of the [except] clause. *)
Definition preprocess_image_for_keras `{Libs}
    (image_bytes : list byte) (model_type : string)
  : option (Np.ndarray Q) :=
  match Image_open image_bytes with
  | None => None
  | Some img =>
      let img_array :=
        if (model_type =? "asl")%string then
          let img := convert (resize img (28, 28)%nat) PIL.L in
          Some (Np.expand_dims_last (PIL.np_array img))
        else if ((model_type =? "digit") || (model_type =? "isl"))%string then
          let img := convert (resize img (32, 32)%nat) PIL.RGB in
          Some (PIL.np_array img)
        else None
      in
      match img_array with
      | None => None
      | Some img_array =>
          let img_array := Np.astype_float32_div_255 img_array in
          Some (Np.expand_dims_first img_array)
      end
  end.

(* ===================================================================== *)
(** ** Requests and responses                                             *)
(* ===================================================================== *)

(** The value of [request.json] when the body is the JSON [null] ([None])
    or a JSON object (a dictionary).  The other JSON values, and the case
    where [request.json] itself raises, are covered by [request_json]
    below. *)
Abbreviation json_body := (option (gmap string value)).

(** The dictionaries handed to [jsonify]. *)
Inductive body : Type :=
| Interpretation (text : string) (confidence : Q) (model : string)
| Error (error : string)
| Audio (audio : string).

(** A response is a JSON body and an HTTP status ([200] when the handler
    returns the body alone). *)
Definition response : Type := body * nat.

Definition ok (b : body) : response := (b, 200%nat).

(** An entry of [results]. *)
Record result : Type := mk_result {
  model : string;
  label : string;
  confidence : Q
}.

(** [not data or key not in data] *)
Definition lacks (data : json_body) (key : string) : bool :=
  match data with
  | None => true
  | Some d => bool_decide (d = ∅) || negb (bool_decide (is_Some (d !! key)))
  end.

(** [data[key]] where a string is needed *)
Definition get_str (data : json_body) (key : string) : Py.outcome string :=
  match data with
  | Some d =>
      match d !! key with
      | Some (VStr s) => Py.Return s
      | _ => Py.Raise Py.Exception
      end
  | None => Py.Raise Py.Exception
  end.

(* ===================================================================== *)
(** ** [interpret_sign]                                                   *)
(* ===================================================================== *)

(** Lines 93-94: drop a data-URL header. *)
Definition strip_data_url (image_data : string) : Py.outcome string :=
  if Py.str_contains "base64," image_data
  then Py.index (Py.str_split "base64," image_data) 1
  else Py.Return image_data.

(** One turn of the loop over [models.items()]: [Some] is the entry
    appended to [results], [None] a turn that appends nothing ([continue],
    the [except] clause, or the out-of-bounds branch). *)
Definition classify_one `{Libs} (image_bytes : list byte)
    (model_type : string) (m : option Model) : option result :=
  match m with
  | None => None
  | Some m =>
      match preprocess_image_for_keras image_bytes model_type with
      | None => None
      | Some processed_image =>
          match m processed_image with
          | None => None
          | Some predictions =>
              match predictions with
              | [] => None
              | row :: _ =>
                  match Np.max row, Np.argmax row with
                  | Some confidence, Some predicted_index =>
                      let label_map := LABEL_MAPS_get model_type in
                      if (predicted_index <? length label_map)%nat then
                        match label_map !! predicted_index with
                        | Some predicted_label =>
                            Some (mk_result model_type predicted_label confidence)
                        | None => None
                        end
                      else None
                  | _, _ => None
                  end
              end
          end
      end
  end.

(** The loop, [results] being the list built so far. *)
Fixpoint collect `{Libs} (image_bytes : list byte)
    (items : list (string * option Model)) (results : list result)
  : list result :=
  match items with
  | [] => results
  | (model_type, m) :: items' =>
      match classify_one image_bytes model_type m with
      | Some r => collect image_bytes items' (results ++ [r])
      | None => collect image_bytes items' results
      end
  end.

Definition no_result : response :=
  (Interpretation "Unable to interpret sign (Prediction failed for all models)"
     0 "none", 500%nat).

Definition low_confidence_text (l : string) : string :=
  "Unable to interpret sign (Low Confidence: " ++ l ++ "?)".

(** Lines 132-154: from [results] to the response. *)
Definition arbitrate (results : list result) : Py.outcome response :=
  match results with
  | [] => Py.Return no_result
  | _ =>
      best_result ← Py.max_key confidence results;
      if Py.Qgeb (confidence best_result) KERAS_CONFIDENCE_THRESHOLD then
        Py.Return (ok (Interpretation (label best_result)
                         (confidence best_result) (model best_result)))
      else
        Py.Return (ok (Interpretation (low_confidence_text (label best_result))
                         (confidence best_result) (model best_result)))
  end.

(** The body of the [try], over the model table [items]. *)
Definition interpret_sign_try `{Libs}
    (items : list (string * option Model)) (data : json_body)
  : Py.outcome response :=
  if lacks data "image" then
    Py.Return (Error "Image data is required", 400%nat)
  else
    image_data ← get_str data "image";
    image_data ← strip_data_url image_data;
    image_bytes ← b64decode image_data;
    arbitrate (collect image_bytes items []).

(** The two [except] clauses. *)
Definition interpret_sign_with `{Libs}
    (items : list (string * option Model)) (data : json_body) : response :=
  match interpret_sign_try items data with
  | Py.Return r => r
  | Py.Raise Py.binascii_Error => (Error "Invalid base64 data", 400%nat)
  | Py.Raise Py.Exception =>
      (Error "Internal server error processing sign interpretation", 500%nat)
  end.

Definition interpret_sign `{Libs} (data : json_body) : response :=
  interpret_sign_with models data.

(** Any JSON value [request.json] can return.  The elements of an array
    matter only through the test ['image' in data]. *)
Inductive json : Type :=
| JNull
| JBool (b : bool)
| JNum (q : Q)
| JStr (s : string)
| JList (l : list value)
| JDict (d : gmap string value).

(** [request.json]: it raises (the body is missing or is not JSON), or it
    returns the parsed value. *)
Inductive request_json : Type :=
| Raises
| Parsed (j : json).

(** [not data] *)
Definition falsy (j : json) : bool :=
  match j with
  | JNull => true
  | JBool b => negb b
  | JNum q => Qeq_bool q 0
  | JStr s => (s =? "")%string
  | JList l => match l with [] => true | _ => false end
  | JDict d => bool_decide (d = ∅)
  end.

(** [key in data]: a substring test on a string, a membership test on a
    list, a key test on a dictionary; [TypeError] on the values that are
    not iterable. *)
Definition contains (j : json) (key : string) : Py.outcome bool :=
  match j with
  | JNull | JBool _ | JNum _ => Py.Raise Py.Exception
  | JStr s => Py.Return (Py.str_contains key s)
  | JList l =>
      Py.Return
        (existsb (fun v => match v with
                           | VStr s => (s =? key)%string
                           | VOther => false
                           end) l)
  | JDict d => Py.Return (bool_decide (is_Some (d !! key)))
  end.

(** The handler on whatever [request.json] does.  Line 87 raising ends in
    the second [except] clause.  Line 89 is [falsy] and [contains]; past
    it, [data['image']] (line 92) raises [TypeError] unless [data] is a
    dictionary, on which the handler goes on as [interpret_sign]. *)
Definition interpret_sign_request `{Libs} (r : request_json) : response :=
  let internal :=
    (Error "Internal server error processing sign interpretation", 500%nat) in
  match r with
  | Raises => internal
  | Parsed data =>
      if falsy data then (Error "Image data is required", 400%nat)
      else
        match contains data "image" with
        | Py.Raise _ => internal
        | Py.Return false => (Error "Image data is required", 400%nat)
        | Py.Return true =>
            match data with
            | JDict d => interpret_sign (Some d)
            | _ => internal
            end
        end
  end.

(* ===================================================================== *)
(** ** [text_to_speech_endpoint]                                          *)
(* ===================================================================== *)

(** Line 264: the name of the audio file, the same in every call. *)
Definition temp_filename : string := "temp_audio.mp3".

(** Lines 260-261 *)
Definition base_language (language : string) : Py.outcome string :=
  if Py.str_contains "-" language
  then Py.index (Py.str_split "-" language) 0
  else Py.Return language.

(** The body of the [try]; the file system is threaded through the steps
    and is returned as the step that raised left it. *)
Definition text_to_speech_try `{Libs} (data : json_body) (fs : FS)
  : FS * Py.outcome response :=
  if lacks data "text" || lacks data "language" then
    (fs, Py.Return (Error "Text and language are required", 400%nat))
  else
    match data ≫= (.!! "text"), get_str data "language" ≫= base_language with
    | Some text, Py.Return language =>
        match gTTS_save text language temp_filename fs with
        | (fs, Py.Raise e) => (fs, Py.Raise e)
        | (fs, Py.Return _) =>
            (* with open(temp_filename, "rb") as audio_file *)
            match fs !! temp_filename with
            | None => (fs, Py.Raise Py.Exception)
            | Some audio =>
                let encoded_audio := Base64.b64encode audio in
                (* os.path.exists, os.remove *)
                let fs :=
                  if bool_decide (is_Some (fs !! temp_filename))
                  then delete temp_filename fs else fs in
                (fs, Py.Return
                       (ok (Audio ("data:audio/mpeg;base64," ++ encoded_audio))))
            end
        end
    | _, _ => (fs, Py.Raise Py.Exception)
    end.

(** The single [except Exception] clause. *)
Definition text_to_speech_endpoint `{Libs} (data : json_body) (fs : FS)
  : FS * response :=
  match text_to_speech_try data fs with
  | (fs, Py.Return r) => (fs, r)
  | (fs, Py.Raise _) =>
      (fs, (Error "Internal server error processing text-to-speech", 500%nat))
  end.

(* ===================================================================== *)
(** ** Test doubles for the collaborators                                 *)
(* ===================================================================== *)

(** Concrete stand-ins, used to run the handlers on examples. *)
Module Double.

Definition b64_value (c : ascii) : option N :=
  (fix find (l : list ascii) (i : N) : option N :=
     match l with
     | [] => None
     | a :: l' => if Ascii.eqb a c then Some i else find l' (N.succ i)
     end) Base64.alphabet 0%N.

Definition byte_of (n : N) : byte := default x00 (Byte.of_N n).

(** The decoding loop of [binascii.a2b_base64] in its default, non-strict
    mode: characters outside the alphabet are skipped, an incomplete final
    quad raises [binascii.Error]. *)
Fixpoint a2b_base64 (s : list ascii) (quad_pos : nat) (leftchar : N)
    (pads : nat) (out : list byte) : Py.outcome (list byte) :=
  match s with
  | [] => if (quad_pos =? 0)%nat then Py.Return out
          else Py.Raise Py.binascii_Error
  | c :: s' =>
      if Ascii.eqb c "="%char then
        if (2 <=? quad_pos)%nat && (4 <=? quad_pos + S pads)%nat
        then Py.Return out
        else a2b_base64 s' quad_pos leftchar
               (if (2 <=? quad_pos)%nat then S pads else pads) out
      else
        match b64_value c with
        | None => a2b_base64 s' quad_pos leftchar pads out
        | Some v =>
            match quad_pos with
            | 0%nat => a2b_base64 s' 1 v 0 out
            | 1%nat =>
                a2b_base64 s' 2 (v mod 16)%N 0
                  (out ++ [byte_of (leftchar * 4 + v / 16)%N])
            | 2%nat =>
                a2b_base64 s' 3 (v mod 4)%N 0
                  (out ++ [byte_of (leftchar * 16 + v / 4)%N])
            | _ =>
                a2b_base64 s' 0 0%N 0
                  (out ++ [byte_of (leftchar * 64 + v)%N])
            end
        end
  end.

(** [base64.b64decode] on a [str]: a character outside ASCII raises
    [ValueError] before the decoding starts. *)
Definition decode (s : string) : Py.outcome (list byte) :=
  let l := list_ascii_of_string s in
  if forallb (fun c => (N_of_ascii c <? 128)%N) l
  then a2b_base64 l 0 0%N 0 []
  else Py.Raise Py.Exception.

(** An image decoder that reads a non-empty byte string as a grey image of
    one pixel. *)
Definition open_pixel (bs : list byte) : option PIL.Image :=
  match bs with
  | [] => None
  | b :: _ => Some (PIL.mk_Image PIL.L (1, 1)%nat (fun _ _ _ => b))
  end.

(** Nearest-neighbour resampling. *)
Definition nearest (img : PIL.Image) (sz : nat * nat) (x y c : nat) : byte :=
  let '(w, h) := PIL.size img in
  PIL.pixel img (x * w / fst sz)%nat (y * h / snd sz)%nat c.

(** Every band of the converted pixel repeats band 0 of the source. *)
Definition band0 (img : PIL.Image) (m : PIL.Mode) (x y c : nat) : byte :=
  PIL.pixel img x y 0%nat.

(** A model that answers every batch with the same rows. *)
Definition fixed_model (rows : option (list (list Q))) : Model := fun _ => rows.

(** [gTTS.save] that writes [audio] and returns. *)
Definition save_ok (audio : list byte)
    (text : value) (lang filename : string) (fs : FS) : FS * Py.outcome unit :=
  (<[filename := audio]> fs, Py.Return tt).

(** [gTTS.save] that opens the file for writing and then raises (the
    synthesis request failed). *)
Definition save_fails
    (text : value) (lang filename : string) (fs : FS) : FS * Py.outcome unit :=
  (<[filename := []]> fs, Py.Raise Py.Exception).

(** The collaborators, given the model files present on disk and the
    behaviour of [gTTS.save]. *)
Definition libs (files : list (string * Model))
    (save : value -> string -> string -> FS -> FS * Py.outcome unit) : Libs :=
  {| b64decode := decode;
     Image_open := open_pixel;
     resample := nearest;
     convert_pixels := band0;
     path_exists := fun p => bool_decide (is_Some (list_to_map (M := gmap string Model) files !! p));
     load_model := fun p => list_to_map (M := gmap string Model) files !! p;
     gTTS_save := save |}.

Local Open Scope Q_scope.

(** Three models whose strongest outputs are 0.6 (digit "3"), 0.6 (asl "B")
    and 0.5 (isl "C"). *)
Definition tie_files : list (string * Model) :=
  [ ("models/digitSignLanguage.h5",
     fixed_model (Some [[0.1; 0.1; 0.1; 0.6; 0.1]]));
    ("models/americanSignLanguage.h5",
     fixed_model (Some [[0.2; 0.6; 0.2]]));
    ("models/indianSignLanguage.h5",
     fixed_model (Some [[0.25; 0.25; 0.5]])) ].

(** Only the ISL model is on disk, and it is unsure. *)
Definition weak_files : list (string * Model) :=
  [ ("models/indianSignLanguage.h5",
     fixed_model (Some [[0.3; 0.3; 0.4]])) ].

(** Only the ISL model is on disk; its strongest output, for "B", is just
    below the threshold. *)
Definition near_files : list (string * Model) :=
  [ ("models/indianSignLanguage.h5",
     fixed_model (Some [[0.2; 0.599999; 0.200001]])) ].

(** The digit model raises, the ASL model answers with an index outside
    its alphabet, the ISL model answers "C". *)
Definition faulty_files : list (string * Model) :=
  [ ("models/digitSignLanguage.h5", fixed_model None);
    ("models/americanSignLanguage.h5",
     fixed_model (Some [(repeat 0 24 ++ [1])%list]));
    ("models/indianSignLanguage.h5",
     fixed_model (Some [[0.1; 0.1; 0.8]])) ].

Local Close Scope Q_scope.

End Double.

(** A request body [{"image": s}]. *)
Definition image_request (s : string) : json_body :=
  Some {[ "image" := VStr s ]}.

(** A request body [{"text": t, "language": l}]. *)
Definition speech_request (t l : string) : json_body :=
  Some (<["text" := VStr t]> {[ "language" := VStr l ]}).

(* ===================================================================== *)
(** ** Vocabulary of the statements                                       *)
(* ===================================================================== *)

Local Open Scope list_scope.

(** [first_max key l m]: [m] is in [l], everything before it has a strictly
    smaller key and nothing after it has a greater one. *)
Definition first_max {A : Type} (key : A -> Q) (l : list A) (m : A) : Prop :=
  exists l1 l2 : list A,
    l = l1 ++ m :: l2 /\
    (forall x, In x l1 -> (key x < key m)%Q) /\
    (forall x, In x l2 -> (key x <= key m)%Q).

(** The request carries an image that decodes to [image_bytes]: lines 89-95
    run without returning or raising. *)
Definition decodes_to `{Libs} (data : json_body) (image_bytes : list byte)
  : Prop :=
  lacks data "image" = false /\
  exists image_data payload : string,
    get_str data "image" = Py.Return image_data /\
    strip_data_url image_data = Py.Return payload /\
    b64decode payload = Py.Return image_bytes.

(** The ways a SymbolSet drops out of a request: its model is not loaded,
    preprocessing returned [None], [predict] raised, or the predicted index
    is outside the alphabet. *)
Inductive skipped `{Libs} (image_bytes : list byte) (model_type : string)
  : option Model -> Prop :=
| skipped_unloaded :
    skipped image_bytes model_type None
| skipped_preprocessing (m : Model) :
    preprocess_image_for_keras image_bytes model_type = None ->
    skipped image_bytes model_type (Some m)
| skipped_inference (m : Model) (t : Np.ndarray Q) :
    preprocess_image_for_keras image_bytes model_type = Some t ->
    m t = None ->
    skipped image_bytes model_type (Some m)
| skipped_out_of_bounds (m : Model) (t : Np.ndarray Q)
    (row : list Q) (rows : list (list Q)) (i : nat) :
    preprocess_image_for_keras image_bytes model_type = Some t ->
    m t = Some (row :: rows) ->
    Np.argmax row = Some i ->
    (length (LABEL_MAPS_get model_type) <= i)%nat ->
    skipped image_bytes model_type (Some m).

(** A tensor of normalised intensities: as many elements as the shape
    announces, each the [intensity] of a byte, hence between 0 and 1. *)
Definition normalised (t : Np.ndarray Q) : Prop :=
  length (Np.data t) = Np.numel (Np.shape t) /\
  (exists raw : list byte, Np.data t = map Np.intensity raw) /\
  (forall v, In v (Np.data t) -> (0 <= v)%Q /\ (v <= 1)%Q).

(** [s] holds no comma. *)
Definition comma_free (s : string) : Prop :=
  ~ In ","%char (list_ascii_of_string s).

(** No file exists after the call that did not exist before it. *)
Definition no_leak (before after : FS) : Prop :=
  forall f : string, is_Some (after !! f) -> is_Some (before !! f).

(** The text-to-speech handler leaves no file behind, whatever the request
    and however the call ends. *)
Definition scoped_temporary_file `{Libs} : Prop :=
  forall (data : json_body) (fs : FS),
    no_leak fs (text_to_speech_endpoint data fs).1.

(* ===================================================================== *)
(** ** [detect_hands_endpoint]                                            *)
(* ===================================================================== *)

(** A MediaPipe landmark: [landmark.x], [landmark.y], [landmark.z]. *)
Record Landmark : Type := mk_Landmark {
  lm_x : Q;
  lm_y : Q;
  lm_z : Q
}.

(** The dictionary [{'x': ..., 'y': ..., 'z': ...}] of the response. *)
Record point : Type := mk_point {
  x : Q;
  y : Q;
  z : Q
}.

(** OpenCV and MediaPipe, as the handler calls them; every call may raise. *)
Class Vision : Type := {
  (** an image array *)
  Mat : Type;
  (** [cv2.imdecode(np.frombuffer(bytes, np.uint8), cv2.IMREAD_COLOR)];
      [Return None] is the [None] OpenCV returns for bytes it cannot read *)
  imdecode : list byte -> Py.outcome (option Mat);
  (** [cv2.cvtColor(img, cv2.COLOR_BGR2RGB)] *)
  cvtColor : Mat -> Py.outcome Mat;
  (** [hands.process(img).multi_hand_landmarks]: [None], or one list of
      landmarks ([hand_landmarks.landmark]) per hand *)
  hands_process : Mat -> Py.outcome (option (list (list Landmark)));
  (** [mp_drawing.draw_landmarks(img, hand_landmarks, ...)], the image
      after the drawing *)
  draw_landmarks : Mat -> list Landmark -> Py.outcome Mat;
  (** the buffer of [cv2.imencode('.png', img)] *)
  imencode : Mat -> Py.outcome (list byte)
}.

(** The dictionaries the handler hands to [jsonify]. *)
Inductive hands_body : Type :=
| Hands (handsDetected : bool) (numHands : nat)
    (handLandmarks : list (list point)) (annotatedImage : string)
| HandsError (error : string).

(** Lines 206-212: the inner loop, [landmarks_for_this_hand] being the list
    built so far. *)
Fixpoint extract_landmarks (landmarks : list Landmark) (acc : list point)
  : list point :=
  match landmarks with
  | [] => acc
  | landmark :: rest =>
      extract_landmarks rest
        (acc ++ [mk_point (lm_x landmark) (lm_y landmark) (lm_z landmark)])
  end.

(** Lines 196-213: the loop over the hands, threading the annotated image
    and [hand_landmarks_list]. *)
Fixpoint annotate_hands `{Vision} (hands : list (list Landmark))
    (annotated : Mat) (hand_landmarks_list : list (list point))
  : Py.outcome (Mat * list (list point)) :=
  match hands with
  | [] => Py.Return (annotated, hand_landmarks_list)
  | hand_landmarks :: rest =>
      annotated ← draw_landmarks annotated hand_landmarks;
      annotate_hands rest annotated
        (hand_landmarks_list ++ [extract_landmarks hand_landmarks []])
  end.

(** [if results.multi_hand_landmarks:] is taken for a non-empty list. *)
Definition truthy {A : Type} (o : option (list A)) : bool :=
  match o with
  | Some (_ :: _) => true
  | _ => false
  end.

(** The body of the [try]. *)
Definition detect_hands_try `{Libs} `{Vision} (data : json_body)
  : Py.outcome (hands_body * nat) :=
  if lacks data "image" then
    Py.Return (HandsError "Image data is required", 400%nat)
  else
    image_data ← get_str data "image";
    image_data ← strip_data_url image_data;
    image_bytes ← b64decode image_data;
    img_np ← imdecode image_bytes;
    match img_np with
    | None => Py.Return (HandsError "Could not decode image", 400%nat)
    | Some img_np =>
        img_rgb ← cvtColor img_np;
        results ← hands_process img_rgb;
        '(hands_detected, num_hands, (annotated, hand_landmarks_list)) ←
          (if truthy results then
             r ← annotate_hands (default [] results) img_np [];
             Py.Return (true, length (default [] results), r)
           else Py.Return (false, 0%nat, (img_np, [])));
        buffer ← imencode annotated;
        Py.Return
          (Hands hands_detected num_hands hand_landmarks_list
             ("data:image/png;base64," ++ Base64.b64encode buffer),
           200%nat)
    end.

(** The two [except] clauses. *)
Definition detect_hands_endpoint `{Libs} `{Vision} (data : json_body)
  : hands_body * nat :=
  match detect_hands_try data with
  | Py.Return r => r
  | Py.Raise Py.binascii_Error => (HandsError "Invalid base64 data", 400%nat)
  | Py.Raise Py.Exception =>
      (HandsError "Internal server error processing hand detection", 500%nat)
  end.

(** Stand-ins for OpenCV and MediaPipe: an image is its bytes, bytes
    starting with [x00] are unreadable, every byte [xff] of the image is a
    hand of two landmarks, drawing a hand appends a byte per landmark. *)
Module VisionDouble.

Definition decode_bytes (bs : list byte) : Py.outcome (option (list byte)) :=
  match bs with
  | [] => Py.Raise Py.Exception
  | x00 :: _ => Py.Return None
  | _ => Py.Return (Some bs)
  end.

Definition two_landmarks : list Landmark :=
  [mk_Landmark 0.5 0.5 0; mk_Landmark 0.25 0.75 (-0.1)]%Q.

Definition find_hands (img : list byte)
  : Py.outcome (option (list (list Landmark))) :=
  match List.filter (fun b => Byte.eqb b xff) img with
  | [] => Py.Return None
  | l => Py.Return (Some (map (fun _ => two_landmarks) l))
  end.

Definition draw (img : list byte) (hand : list Landmark)
  : Py.outcome (list byte) :=
  Py.Return (img ++ map (fun _ => x2a) hand)%list.

Definition vision : Vision :=
  {| Mat := list byte;
     imdecode := decode_bytes;
     cvtColor := fun img => Py.Return img;
     hands_process := find_hands;
     draw_landmarks := draw;
     imencode := fun img => Py.Return img |}.

End VisionDouble.

(** The two error responses of the text-to-speech handler. *)
Definition tts_required : response :=
  (Error "Text and language are required", 400%nat).

Definition tts_internal : response :=
  (Error "Internal server error processing text-to-speech", 500%nat).

(** The landmark dictionaries of one hand. *)
Definition points_of (hand : list Landmark) : list point :=
  map (fun lm => mk_point (lm_x lm) (lm_y lm) (lm_z lm)) hand.

(** [marker_free s]: "base64," occurs nowhere in [s]. *)
Definition marker_free (s : string) : Prop :=
  Py.str_contains "base64," s = false.

(** [dash_free s]: [s] holds no hyphen. *)
Definition dash_free (s : string) : Prop :=
  ~ In "-"%char (list_ascii_of_string s).

(* ===================================================================== *)
(** * Properties                                                          *)
(* ===================================================================== *)

(** ** Comparisons *)

Lemma Qltb_lt (a b : Q) : Py.Qltb a b = true <-> (a < b)%Q.
Proof.
  unfold Py.Qltb. rewrite negb_true_iff.
  split.
  - intros Hle. apply Qnot_le_lt. intros Hba.
    apply Qle_bool_iff in Hba. congruence.
  - intros Hlt. destruct (Qle_bool b a) eqn:E; [|reflexivity].
    apply Qle_bool_iff in E. exfalso. exact (Qlt_not_le _ _ Hlt E).
Qed.

Lemma Qltb_ge (a b : Q) : Py.Qltb a b = false <-> (b <= a)%Q.
Proof.
  unfold Py.Qltb. rewrite negb_false_iff. apply Qle_bool_iff.
Qed.

Lemma Qgeb_ge (a b : Q) : Py.Qgeb a b = true <-> (b <= a)%Q.
Proof. unfold Py.Qgeb. apply Qle_bool_iff. Qed.

Lemma Qgeb_lt (a b : Q) : Py.Qgeb a b = false <-> (a < b)%Q.
Proof.
  unfold Py.Qgeb. split.
  - intros E. apply Qnot_le_lt. intros Hle. apply Qle_bool_iff in Hle. congruence.
  - intros Hlt. destruct (Qle_bool b a) eqn:E; [|reflexivity].
    apply Qle_bool_iff in E. exfalso. exact (Qlt_not_le _ _ Hlt E).
Qed.

(** ** [max] with a key *)

Section MaxKey.
Context {A : Type} (key : A -> Q).

Lemma max_from_scan (rest l1 mid : list A) (best : A) :
  (forall x, In x l1 -> (key x < key best)%Q) ->
  (forall x, In x mid -> (key x <= key best)%Q) ->
  first_max key (l1 ++ best :: mid ++ rest) (Py.max_from key best rest).
Proof.
  revert l1 mid best.
  induction rest as [|x rest IH]; intros l1 mid best Hl1 Hmid; simpl.
  - exists l1, mid. rewrite app_nil_r. auto.
  - destruct (Py.Qltb (key best) (key x)) eqn:E.
    + apply Qltb_lt in E.
      specialize (IH (l1 ++ best :: mid) [] x).
      replace (l1 ++ best :: mid ++ x :: rest)
        with ((l1 ++ best :: mid) ++ x :: [] ++ rest)
        by (rewrite <- app_assoc; reflexivity).
      apply IH.
      * intros y Hy. apply in_app_or in Hy.
        destruct Hy as [Hy | [<- | Hy]].
        -- eapply Qlt_trans; [apply Hl1, Hy | exact E].
        -- exact E.
        -- eapply Qle_lt_trans; [apply Hmid, Hy | exact E].
      * intros y [].
    + apply Qltb_ge in E.
      specialize (IH l1 (mid ++ [x]) best).
      replace (l1 ++ best :: mid ++ x :: rest)
        with (l1 ++ best :: (mid ++ [x]) ++ rest)
        by (rewrite <- (app_assoc mid); reflexivity).
      apply IH; [exact Hl1|].
      intros y Hy. apply in_app_or in Hy.
      destruct Hy as [Hy | [<- | []]]; [apply Hmid, Hy | exact E].
Qed.

Lemma max_key_first_max (x : A) (rest : list A) :
  first_max key (x :: rest) (Py.max_from key x rest).
Proof.
  apply (max_from_scan rest [] [] x); intros y [].
Qed.


End MaxKey.

(** ** The loop over the model table *)

Section Loop.
Context `{Libs}.

Lemma collect_acc (image_bytes : list byte)
    (items : list (string * option Model)) (acc : list result) :
  collect image_bytes items acc = acc ++ collect image_bytes items [].
Proof.
  revert acc. induction items as [|[mt m] items IH]; intros acc; simpl.
  - now rewrite app_nil_r.
  - destruct (classify_one image_bytes mt m) as [r|].
    + rewrite (IH (acc ++ [r])), (IH [r]).
      now rewrite <- app_assoc.
    + apply IH.
Qed.

Lemma collect_cons (image_bytes : list byte) (mt : string)
    (m : option Model) (items : list (string * option Model)) :
  collect image_bytes ((mt, m) :: items) [] =
  match classify_one image_bytes mt m with
  | Some r => r :: collect image_bytes items []
  | None => collect image_bytes items []
  end.
Proof.
  simpl. destruct (classify_one image_bytes mt m) as [r|]; [|reflexivity].
  now rewrite collect_acc.
Qed.

Lemma collect_app (image_bytes : list byte)
    (items1 items2 : list (string * option Model)) :
  collect image_bytes (items1 ++ items2) [] =
  collect image_bytes items1 [] ++ collect image_bytes items2 [].
Proof.
  induction items1 as [|[mt m] items1 IH]; [reflexivity|].
  rewrite <- app_comm_cons, !collect_cons.
  destruct (classify_one image_bytes mt m); simpl; now rewrite IH.
Qed.

Lemma classify_one_model (image_bytes : list byte) (mt : string)
    (m : option Model) (r : result) :
  classify_one image_bytes mt m = Some r -> model r = mt.
Proof.
  unfold classify_one. intros Hr.
  repeat match type of Hr with
         | match ?x with _ => _ end = _ => destruct x; try discriminate
         | (if ?b then _ else _) = _ => destruct b; try discriminate
         end.
  now inversion Hr.
Qed.

Lemma collect_in (image_bytes : list byte)
    (items : list (string * option Model)) (r : result) :
  In r (collect image_bytes items []) ->
  exists m, In (model r, m) items /\ classify_one image_bytes (model r) m = Some r.
Proof.
  induction items as [|[mt m] items IH]; [intros []|].
  rewrite collect_cons.
  destruct (classify_one image_bytes mt m) as [r'|] eqn:E.
  - intros [<- | Hin].
    + exists m. rewrite (classify_one_model _ _ _ _ E). split; [now left | exact E].
    + destruct (IH Hin) as (m' & Hm' & Hr). exists m'. split; [now right | exact Hr].
  - intros Hin. destruct (IH Hin) as (m' & Hm' & Hr).
    exists m'. split; [now right | exact Hr].
Qed.

Lemma collect_order (image_bytes : list byte)
    (items : list (string * option Model)) :
  sublist (map model (collect image_bytes items [])) (map fst items).
Proof.
  induction items as [|[mt m] items IH]; [constructor|].
  rewrite collect_cons.
  destruct (classify_one image_bytes mt m) as [r|] eqn:E; simpl.
  - rewrite (classify_one_model _ _ _ _ E). now constructor.
  - now constructor.
Qed.

Lemma models_names : map fst models = ["digit"; "asl"; "isl"].
Proof. reflexivity. Qed.
End Loop.

(** ** The arbiter *)

Lemma arbitrate_best (results : list result) :
  results <> [] ->
  exists best : result,
    Py.max_key confidence results = Py.Return best /\
    first_max confidence results best /\
    arbitrate results =
      Py.Return
        (ok (Interpretation
               (if Py.Qgeb (confidence best) KERAS_CONFIDENCE_THRESHOLD
                then label best else low_confidence_text (label best))
               (confidence best) (model best))).
Proof.
  destruct results as [|x rest]; [congruence|]. intros _.
  exists (Py.max_from confidence x rest). split; [reflexivity|].
  split; [apply max_key_first_max|].
  unfold arbitrate, Py.max_key. cbn [mbind outcome_bind Py.bind].
  now destruct (Py.Qgeb _ _).
Qed.

(** C1. Whenever the loop of [interpret_sign] leaves a non-empty [results],
    [max] selects an entry of maximum confidence, and among entries of equal
    maximum confidence the first one: every entry before the selected one has
    a strictly smaller confidence, no entry after it has a greater one.  The
    entries of [results] follow the order digit, asl, isl of the model table,
    and the response carries the confidence and the model of the selected
    entry. *)
Theorem C1_arbiter_selects_first_maximum `{Libs} (image_bytes : list byte) :
  let results := collect image_bytes models [] in
  results <> [] ->
  exists best : result,
    Py.max_key confidence results = Py.Return best /\
    first_max confidence results best /\
    sublist (map model results) ["digit"; "asl"; "isl"] /\
    exists text : string,
      arbitrate results =
        Py.Return (ok (Interpretation text (confidence best) (model best))).
Proof.
  intros results Hne.
  destruct (arbitrate_best results Hne) as (best & Hmax & Hfirst & Harb).
  exists best. repeat split; try assumption.
  - rewrite <- models_names. apply collect_order.
  - eexists. exact Harb.
Qed.

Lemma C1_witness :
  let L := Double.libs Double.tie_files Double.save_fails in
  @collect L [x4d] (@models L) [] <> [] /\
  exists best : result,
    Py.max_key confidence (@collect L [x4d] (@models L) []) = Py.Return best /\
    first_max confidence (@collect L [x4d] (@models L) []) best /\
    sublist (map model (@collect L [x4d] (@models L) [])) ["digit"; "asl"; "isl"] /\
    exists text : string,
      arbitrate (@collect L [x4d] (@models L) []) =
        Py.Return (ok (Interpretation text (confidence best) (model best))).
Proof.
  intros L.
  assert (Hne : @collect L [x4d] (@models L) [] <> []) by (vm_compute; discriminate).
  split; [exact Hne|].
  exact (@C1_arbiter_selects_first_maximum L [x4d] Hne).
Defined.

(** On the tie of the test double (digit and asl both at 0.6), digit wins. *)
Example tie_goes_to_digit :
  @interpret_sign (Double.libs Double.tie_files Double.save_fails)
    (image_request "TUFO") = ok (Interpretation "3" 0.6%Q "digit").
Proof. vm_compute. reflexivity. Qed.

(** ** The handler after decoding *)

Section Handler.
Context `{Libs}.

Lemma interpret_sign_decoded (items : list (string * option Model))
    (data : json_body) (image_bytes : list byte) :
  decodes_to data image_bytes ->
  interpret_sign_try items data = arbitrate (collect image_bytes items []).
Proof.
  intros (Hlacks & s & p & Hget & Hstrip & Hdec).
  unfold interpret_sign_try. rewrite Hlacks.
  unfold mbind, outcome_bind. rewrite Hget. cbn [Py.bind].
  rewrite Hstrip. cbn [Py.bind]. rewrite Hdec. reflexivity.
Qed.

Lemma interpret_sign_winner (items : list (string * option Model))
    (data : json_body) (image_bytes : list byte) (best : result) :
  decodes_to data image_bytes ->
  Py.max_key confidence (collect image_bytes items []) = Py.Return best ->
  interpret_sign_with items data =
    ok (Interpretation
          (if Py.Qgeb (confidence best) KERAS_CONFIDENCE_THRESHOLD
           then label best else low_confidence_text (label best))
          (confidence best) (model best)).
Proof.
  intros Hdec Hmax. unfold interpret_sign_with.
  rewrite (interpret_sign_decoded _ _ _ Hdec).
  destruct (collect image_bytes items []) as [|x rest] eqn:E;
    [discriminate|].
  destruct (arbitrate_best (x :: rest)) as (b & Hb & _ & Harb);
    [discriminate|].
  rewrite Harb. rewrite Hb in Hmax. injection Hmax as ->. reflexivity.
Qed.

Lemma skipped_none (image_bytes : list byte) (mt : string) (m : option Model) :
  skipped image_bytes mt m -> classify_one image_bytes mt m = None.
Proof.
  intros Hs. destruct Hs as [|m Hp|m t Hp Hm|m t row rows i Hp Hm Hi Hlen];
    unfold classify_one; [reflexivity|..]; rewrite Hp; [reflexivity|..];
    rewrite Hm; [reflexivity|].
  rewrite Hi. destruct (Np.max row); [|reflexivity].
  apply Nat.ltb_ge in Hlen. now rewrite Hlen.
Qed.

Lemma collect_all_skipped (image_bytes : list byte)
    (items : list (string * option Model)) :
  (forall mt m, In (mt, m) items -> skipped image_bytes mt m) ->
  collect image_bytes items [] = [].
Proof.
  induction items as [|[mt m] items IH]; intros Hall; [reflexivity|].
  rewrite collect_cons, (skipped_none _ _ _ (Hall mt m (or_introl eq_refl))).
  apply IH. intros mt' m' Hin. apply Hall. now right.
Qed.
End Handler.

Lemma length_append (a b : string) :
  String.length (a +:+ b) = (String.length a + String.length b)%nat.
Proof. induction a as [|c a IH]; simpl; [reflexivity | now rewrite IH]. Qed.

Lemma low_confidence_text_not_label (l : string) : low_confidence_text l <> l.
Proof.
  intros E. apply (f_equal String.length) in E.
  unfold low_confidence_text in E. rewrite !length_append in E.
  simpl in E. lia.
Qed.

(** C2. Whenever the request decodes and [max] selects [best]: a confidence
    equal to 0.6, and more generally one that is at least 0.6, gives the
    accepted response, whose text is the bare label; a confidence strictly
    below 0.6 gives the response marked as low confidence, whose text is
    "Unable to interpret sign (Low Confidence: <label>?)" and not the label,
    and which still carries the real confidence and the model, with status
    200. *)
Theorem C2_threshold_boundary `{Libs}
    (data : json_body) (image_bytes : list byte) (best : result) :
  decodes_to data image_bytes ->
  Py.max_key confidence (collect image_bytes models []) = Py.Return best ->
  ((confidence best == 0.6)%Q ->
     interpret_sign data =
       (Interpretation (label best) (confidence best) (model best),
        200%nat)) /\
  ((0.6 <= confidence best)%Q ->
     interpret_sign data =
       (Interpretation (label best) (confidence best) (model best),
        200%nat)) /\
  ((confidence best < 0.6)%Q ->
     interpret_sign data =
       (Interpretation
          ("Unable to interpret sign (Low Confidence: "
             +:+ label best +:+ "?)")
          (confidence best) (model best),
        200%nat) /\
     "Unable to interpret sign (Low Confidence: " +:+ label best +:+ "?)"
       <> label best).
Proof.
  intros Hdec Hmax. unfold interpret_sign.
  rewrite (interpret_sign_winner _ _ _ _ Hdec Hmax).
  change 0.6%Q with KERAS_CONFIDENCE_THRESHOLD.
  split; [|split].
  - intros Heq. assert (Hge : (KERAS_CONFIDENCE_THRESHOLD <= confidence best)%Q)
      by (rewrite Heq; apply Qle_refl).
    apply Qgeb_ge in Hge. now rewrite Hge.
  - intros Hge. apply Qgeb_ge in Hge. now rewrite Hge.
  - intros Hlt. apply Qgeb_lt in Hlt. rewrite Hlt.
    split; [reflexivity|]. apply low_confidence_text_not_label.
Qed.

Lemma C2_witness :
  let L := Double.libs Double.tie_files Double.save_fails in
  let N := Double.libs Double.near_files Double.save_fails in
  (@decodes_to L (image_request "TUFO") [x4d; x41; x4e] /\
   Py.max_key confidence (@collect L [x4d; x41; x4e] (@models L) []) =
     Py.Return (mk_result "digit" "3" 0.6%Q) /\
   @interpret_sign L (image_request "TUFO") =
     (Interpretation "3" 0.6%Q "digit", 200%nat)) /\
  (@decodes_to N (image_request "TUFO") [x4d; x41; x4e] /\
   Py.max_key confidence (@collect N [x4d; x41; x4e] (@models N) []) =
     Py.Return (mk_result "isl" "B" 0.599999%Q) /\
   @interpret_sign N (image_request "TUFO") =
     (Interpretation "Unable to interpret sign (Low Confidence: B?)"
        0.599999%Q "isl", 200%nat)).
Proof.
  intros L N. split.
  - assert (Hdec : @decodes_to L (image_request "TUFO") [x4d; x41; x4e]).
    { split; [vm_compute; reflexivity|].
      exists "TUFO", "TUFO". repeat split; vm_compute; reflexivity. }
    assert (Hmax : Py.max_key confidence
                     (@collect L [x4d; x41; x4e] (@models L) []) =
                   Py.Return (mk_result "digit" "3" 0.6%Q))
      by (vm_compute; reflexivity).
    split; [exact Hdec|]. split; [exact Hmax|].
    destruct (@C2_threshold_boundary L _ _ _ Hdec Hmax) as (Heq & _ & _).
    apply Heq. reflexivity.
  - assert (Hdec : @decodes_to N (image_request "TUFO") [x4d; x41; x4e]).
    { split; [vm_compute; reflexivity|].
      exists "TUFO", "TUFO". repeat split; vm_compute; reflexivity. }
    assert (Hmax : Py.max_key confidence
                     (@collect N [x4d; x41; x4e] (@models N) []) =
                   Py.Return (mk_result "isl" "B" 0.599999%Q))
      by (vm_compute; reflexivity).
    split; [exact Hdec|]. split; [exact Hmax|].
    destruct (@C2_threshold_boundary N _ _ _ Hdec Hmax) as (_ & _ & Hlow).
    apply Hlow. reflexivity.
Defined.

(** ** The low-confidence text *)



(** ** No result *)

(** C3. When the request decodes and every entry of the model table drops
    out (its model is not loaded, preprocessing failed, [predict] raised, or
    the predicted index is outside the alphabet), [results] is empty and the
    handler returns the body with confidence 0 and model "none" (status
    500): a response, not an exception. *)
Theorem C3_no_result_response `{Libs}
    (data : json_body) (image_bytes : list byte) :
  decodes_to data image_bytes ->
  (forall mt m, In (mt, m) models -> skipped image_bytes mt m) ->
  collect image_bytes models [] = [] /\
  interpret_sign data =
    (Interpretation
       "Unable to interpret sign (Prediction failed for all models)" 0 "none",
     500%nat).
Proof.
  intros Hdec Hall.
  pose proof (collect_all_skipped image_bytes models Hall) as Hnil.
  split; [exact Hnil|].
  unfold interpret_sign, interpret_sign_with.
  rewrite (interpret_sign_decoded _ _ _ Hdec), Hnil. reflexivity.
Qed.

Lemma C3_witness :
  let L := Double.libs [("models/digitSignLanguage.h5", Double.fixed_model None)]
             Double.save_fails in
  @decodes_to L (image_request "TUFO") [x4d; x41; x4e] /\
  (forall mt m, In (mt, m) (@models L) -> @skipped L [x4d; x41; x4e] mt m) /\
  @interpret_sign L (image_request "TUFO") =
    (Interpretation
       "Unable to interpret sign (Prediction failed for all models)" 0 "none",
     500%nat).
Proof.
  intros L.
  assert (Hdec : @decodes_to L (image_request "TUFO") [x4d; x41; x4e]).
  { split; [vm_compute; reflexivity|].
    exists "TUFO", "TUFO". repeat split; vm_compute; reflexivity. }
  assert (Hall : forall mt m, In (mt, m) (@models L) ->
                              @skipped L [x4d; x41; x4e] mt m).
  { intros mt m Hin.
    change (@models L) with
      [("digit", @load_model L "models/digitSignLanguage.h5");
       ("asl", None); ("isl", None)] in Hin.
    destruct Hin as [E | [E | [E | []]]]; inversion E; subst.
    - change (@load_model L "models/digitSignLanguage.h5")
        with (Some (Double.fixed_model None)).
      eapply skipped_inference; [vm_compute; reflexivity | reflexivity].
    - constructor.
    - constructor. }
  split; [exact Hdec|]. split; [exact Hall|].
  exact (proj2 (@C3_no_result_response L _ _ Hdec Hall)).
Defined.

(** ** A failing SymbolSet is absorbed *)

(** C4. An entry of the model table that drops out of a request (because
    preprocessing failed or [predict] raised, or for the other two reasons
    of [skipped]) leaves [results] exactly as it would be without the entry,
    and the handler answers the request as it would without the entry. *)
Theorem C4_failure_absorbed `{Libs}
    (items1 items2 : list (string * option Model))
    (mt : string) (m : option Model)
    (data : json_body) (image_bytes : list byte) :
  decodes_to data image_bytes ->
  skipped image_bytes mt m ->
  collect image_bytes (items1 ++ (mt, m) :: items2) [] =
    collect image_bytes (items1 ++ items2) [] /\
  interpret_sign_with (items1 ++ (mt, m) :: items2) data =
    interpret_sign_with (items1 ++ items2) data.
Proof.
  intros Hdec Hskip.
  assert (Hcollect : collect image_bytes (items1 ++ (mt, m) :: items2) [] =
                     collect image_bytes (items1 ++ items2) []).
  { rewrite !collect_app, collect_cons.
    now rewrite (skipped_none _ _ _ Hskip). }
  split; [exact Hcollect|].
  unfold interpret_sign_with.
  now rewrite !(interpret_sign_decoded _ _ _ Hdec), Hcollect.
Qed.

Lemma C4_witness :
  let L := Double.libs Double.faulty_files Double.save_fails in
  let isl := ("isl", Some (Double.fixed_model (Some [[0.1; 0.1; 0.8]%Q]))) in
  @decodes_to L (image_request "TUFO") [x4d; x41; x4e] /\
  @skipped L [x4d; x41; x4e] "digit" (Some (Double.fixed_model None)) /\
  @collect L [x4d; x41; x4e]
     ([] ++ ("digit", Some (Double.fixed_model None)) :: [isl]) [] =
    @collect L [x4d; x41; x4e] ([] ++ [isl]) [] /\
  @interpret_sign_with L
     ([] ++ ("digit", Some (Double.fixed_model None)) :: [isl])
     (image_request "TUFO") =
    @interpret_sign_with L ([] ++ [isl]) (image_request "TUFO").
Proof.
  intros L isl.
  assert (Hdec : @decodes_to L (image_request "TUFO") [x4d; x41; x4e]).
  { split; [vm_compute; reflexivity|].
    exists "TUFO", "TUFO". repeat split; vm_compute; reflexivity. }
  assert (Hskip : @skipped L [x4d; x41; x4e] "digit"
                    (Some (Double.fixed_model None))).
  { eapply skipped_inference; [vm_compute; reflexivity | reflexivity]. }
  split; [exact Hdec|]. split; [exact Hskip|].
  exact (@C4_failure_absorbed L [] [isl] "digit" _ _ _ Hdec Hskip).
Defined.

(** A preprocessing failure: bytes no decoder accepts. *)
Example undecodable_is_skipped :
  @skipped (Double.libs Double.tie_files Double.save_fails) [] "asl"
    (Some (Double.fixed_model (Some [[1%Q]]))).
Proof. apply skipped_preprocessing. reflexivity. Qed.

(** ** [np.max] and [np.argmax] *)





(** ** What a candidate is made of *)




(** ** Preprocessing *)

Lemma intensity_range (b : byte) :
  (0 <= Np.intensity b)%Q /\ (Np.intensity b <= 1)%Q.
Proof.
  pose proof (Byte.to_N_bounded b) as Hb.
  unfold Np.intensity, Qle, Qdiv, Qmult, Qinv. simpl.
  split; lia.
Qed.

Lemma np_array_length (img : PIL.Image) :
  length (Np.data (PIL.np_array img)) =
  (snd (PIL.size img) * (fst (PIL.size img) * PIL.bands (PIL.mode img)))%nat.
Proof.
  unfold PIL.np_array. destruct (PIL.size img) as [w h]. simpl.
  rewrite (flat_map_constant_length (c := (w * PIL.bands (PIL.mode img))%nat)).
  - now rewrite length_seq.
  - intros y _.
    rewrite (flat_map_constant_length (c := PIL.bands (PIL.mode img))).
    + now rewrite length_seq.
    + intros x _. now rewrite length_map, length_seq.
Qed.

Lemma np_array_shape (img : PIL.Image) :
  Np.shape (PIL.np_array img) =
  if (PIL.bands (PIL.mode img) =? 1)%nat
  then [snd (PIL.size img); fst (PIL.size img)]
  else [snd (PIL.size img); fst (PIL.size img); PIL.bands (PIL.mode img)].
Proof.
  unfold PIL.np_array. now destruct (PIL.size img) as [w h].
Qed.

Lemma normalised_batch (a : Np.ndarray byte) :
  length (Np.data a) = Np.numel (Np.shape a) ->
  normalised (Np.expand_dims_first (Np.astype_float32_div_255 a)).
Proof.
  intros Hlen. unfold normalised. simpl. repeat split.
  - rewrite length_map, Hlen. lia.
  - now exists (Np.data a).
  - apply in_map_iff in H as (b & <- & _). apply intensity_range.
  - apply in_map_iff in H as (b & <- & _). apply intensity_range.
Qed.

(** Where a pixel ends up in the array. *)

Lemma map_lookup {A B : Type} (f : A -> B) (l : list A) (i : nat) :
  map f l !! i = f <$> l !! i.
Proof.
  revert i. induction l as [|a l IH]; intros [|i]; simpl; auto.
Qed.

Lemma flat_map_lookup {A B : Type} (f : A -> list B) (c : nat)
    (l : list A) (i j : nat) :
  (forall a, length (f a) = c) -> (j < c)%nat ->
  flat_map f l !! (i * c + j)%nat = l !! i ≫= (fun a => f a !! j).
Proof.
  intros Hlen Hj. revert i. induction l as [|a l IH]; intros i.
  - now destruct i.
  - cbn [flat_map]. destruct i as [|i].
    + rewrite lookup_app_l by (rewrite Hlen; lia). reflexivity.
    + rewrite lookup_app_r by (rewrite Hlen; lia).
      rewrite Hlen.
      replace (S i * c + j - c)%nat with (i * c + j)%nat by lia.
      apply IH.
Qed.

Lemma np_array_lookup (img : PIL.Image) (x y k : nat) :
  (x < fst (PIL.size img))%nat -> (y < snd (PIL.size img))%nat ->
  (k < PIL.bands (PIL.mode img))%nat ->
  Np.data (PIL.np_array img)
    !! ((y * fst (PIL.size img) + x) * PIL.bands (PIL.mode img) + k)%nat
  = Some (PIL.pixel img x y k).
Proof.
  unfold PIL.np_array. destruct (PIL.size img) as [w h]. simpl.
  set (c := PIL.bands (PIL.mode img)). intros Hx Hy Hk.
  replace ((y * w + x) * c + k)%nat with (y * (w * c) + (x * c + k))%nat
    by lia.
  rewrite (flat_map_lookup _ (w * c)%nat).
  - rewrite lookup_seq_lt by exact Hy. cbn [mbind option_bind].
    rewrite (flat_map_lookup _ c).
    + rewrite lookup_seq_lt by exact Hx. cbn [mbind option_bind].
      rewrite map_lookup, lookup_seq_lt by exact Hk. reflexivity.
    + intros a. now rewrite length_map, length_seq.
    + exact Hk.
  - intros a. rewrite (flat_map_constant_length (c := c)).
    + now rewrite length_seq.
    + intros b _. now rewrite length_map, length_seq.
  - nia.
Qed.

(** C5. For every image the decoder accepts, preprocessing for "asl" returns
    a tensor of shape 1 x 28 x 28 x 1 and preprocessing for "digit" and for
    "isl" returns a tensor of shape 1 x 32 x 32 x 3, the leading dimension
    being the batch of one image.  The element for pixel (x, y) and band k
    is the byte of that pixel in the resized, converted image divided by
    255; the tensor has as many elements as its shape announces, each
    between 0 and 1. *)
Theorem C5_preprocess_shapes `{Libs} (image_bytes : list byte)
    (img : PIL.Image) :
  Image_open image_bytes = Some img ->
  (exists t : Np.ndarray Q,
     preprocess_image_for_keras image_bytes "asl" = Some t /\
     Np.shape t = [1; 28; 28; 1]%nat /\
     length (Np.data t) = 784%nat /\
     (forall x y : nat, (x < 28)%nat -> (y < 28)%nat ->
        Np.data t !! (y * 28 + x)%nat =
        Some (inject_Z (Z.of_N (Byte.to_N
                (PIL.pixel (convert (resize img (28, 28)%nat) PIL.L) x y 0)))
              / 255)%Q) /\
     (forall v : Q, In v (Np.data t) -> (0 <= v)%Q /\ (v <= 1)%Q)) /\
  (forall mt : string, mt = "digit" \/ mt = "isl" ->
   exists t : Np.ndarray Q,
     preprocess_image_for_keras image_bytes mt = Some t /\
     Np.shape t = [1; 32; 32; 3]%nat /\
     length (Np.data t) = 3072%nat /\
     (forall x y k : nat, (x < 32)%nat -> (y < 32)%nat -> (k < 3)%nat ->
        Np.data t !! ((y * 32 + x) * 3 + k)%nat =
        Some (inject_Z (Z.of_N (Byte.to_N
                (PIL.pixel (convert (resize img (32, 32)%nat) PIL.RGB) x y k)))
              / 255)%Q) /\
     (forall v : Q, In v (Np.data t) -> (0 <= v)%Q /\ (v <= 1)%Q)).
Proof.
  intros Hopen. unfold preprocess_image_for_keras. rewrite Hopen.
  assert (Hrange : forall (a : Np.ndarray byte) (v : Q),
             In v (map Np.intensity (Np.data a)) -> (0 <= v)%Q /\ (v <= 1)%Q).
  { intros a v Hv. apply in_map_iff in Hv as (b & <- & _).
    apply intensity_range. }
  split.
  - change ("asl" =? "asl")%string with true. cbv iota.
    eexists. split; [reflexivity|]. split; [reflexivity|].
    cbn [Np.data Np.expand_dims_first Np.astype_float32_div_255
           Np.expand_dims_last].
    split; [|split].
    + rewrite length_map, np_array_length. reflexivity.
    + intros x y Hx Hy. rewrite map_lookup.
      pose proof (np_array_lookup
                    (convert (resize img (28, 28)%nat) PIL.L) x y 0 Hx Hy)
        as Hpx.
      cbn [convert resize PIL.size PIL.mode PIL.bands fst snd] in Hpx.
      replace ((y * 28 + x) * 1 + 0)%nat with (y * 28 + x)%nat in Hpx by lia.
      rewrite Hpx by lia. reflexivity.
    + apply Hrange.
  - intros mt Hmt.
    assert (Hsel : ((mt =? "asl") = false /\
                    ((mt =? "digit") || (mt =? "isl")) = true)%string)
      by (destruct Hmt as [-> | ->]; split; reflexivity).
    destruct Hsel as [-> ->].
    eexists. split; [reflexivity|]. split; [reflexivity|].
    cbn [Np.data Np.expand_dims_first Np.astype_float32_div_255].
    split; [|split].
    + rewrite length_map, np_array_length. reflexivity.
    + intros x y k Hx Hy Hk. rewrite map_lookup.
      pose proof (np_array_lookup
                    (convert (resize img (32, 32)%nat) PIL.RGB) x y k Hx Hy Hk)
        as Hpx.
      cbn [convert resize PIL.size PIL.mode PIL.bands fst snd] in Hpx.
      rewrite Hpx. reflexivity.
    + apply Hrange.
Qed.

Lemma C5_witness :
  let L := Double.libs [] Double.save_fails in
  @Image_open L [xff] = Some (PIL.mk_Image PIL.L (1, 1)%nat (fun _ _ _ => xff)) /\
  (exists t : Np.ndarray Q,
     @preprocess_image_for_keras L [xff] "asl" = Some t /\
     Np.shape t = [1; 28; 28; 1]%nat /\
     length (Np.data t) = 784%nat /\
     Np.data t !! (27 * 28 + 27)%nat = Some (inject_Z 255 / 255)%Q) /\
  (exists t : Np.ndarray Q,
     @preprocess_image_for_keras L [xff] "digit" = Some t /\
     Np.shape t = [1; 32; 32; 3]%nat /\
     length (Np.data t) = 3072%nat /\
     Np.data t !! ((31 * 32 + 31) * 3 + 2)%nat = Some (inject_Z 255 / 255)%Q).
Proof.
  intros L. split; [reflexivity|].
  destruct (@C5_preprocess_shapes L [xff] _ eq_refl) as (Hasl & Hrgb).
  split.
  - destruct Hasl as (t & Ht & Hshape & Hlen & Hpx & _).
    exists t. split; [exact Ht|]. split; [exact Hshape|].
    split; [exact Hlen|]. apply (Hpx 27%nat 27%nat); lia.
  - destruct (Hrgb "digit" (or_introl eq_refl))
      as (t & Ht & Hshape & Hlen & Hpx & _).
    exists t. split; [exact Ht|]. split; [exact Hshape|].
    split; [exact Hlen|]. apply (Hpx 31%nat 31%nat 2%nat); lia.
Defined.

(** An unknown model type takes the [raise ValueError] branch. *)
Example preprocess_unknown_type :
  @preprocess_image_for_keras (Double.libs [] Double.save_fails) [xff] "bsl"
  = None.
Proof. reflexivity. Qed.

(** ** Data-URL headers *)

Section Marker.

Lemma prefix_append (s1 s2 : string) :
  String.prefix s1 s2 = true -> exists rest : string, s2 = s1 +:+ rest.
Proof.
  revert s2. induction s1 as [|a s1 IH]; intros s2 Hp.
  - now exists s2.
  - destruct s2 as [|b s2]; [discriminate|].
    cbn [String.prefix] in Hp.
    destruct (ascii_dec a b) as [<-|]; [|discriminate].
    destruct (IH s2 Hp) as (rest & ->). now exists rest.
Qed.

Lemma prefix_of_append (s1 rest : string) :
  String.prefix s1 (s1 +:+ rest) = true.
Proof.
  induction s1 as [|a s1 IH]; [now destruct rest|].
  simpl. destruct (ascii_dec a a); [exact IH | congruence].
Qed.

Lemma str_drop_append (s1 rest : string) :
  Py.str_drop (String.length s1) (s1 +:+ rest) = rest.
Proof. induction s1 as [|a s1 IH]; [reflexivity | exact IH]. Qed.

Lemma str_find_here (a : ascii) (sep rest : string) :
  Py.str_find (String a sep) (String a sep +:+ rest) = Some (""%string, rest).
Proof.
  change (String a sep +:+ rest) with (String a (sep +:+ rest)).
  cbn [Py.str_find].
  change (String a (sep +:+ rest)) with (String a sep +:+ rest).
  now rewrite prefix_of_append, str_drop_append.
Qed.

Lemma str_contains_here (a : ascii) (sep rest : string) :
  Py.str_contains (String a sep) (String a sep +:+ rest) = true.
Proof.
  change (String a sep +:+ rest) with (String a (sep +:+ rest)).
  cbn [Py.str_contains].
  change (String a (sep +:+ rest)) with (String a sep +:+ rest).
  now rewrite prefix_of_append.
Qed.

Lemma prefix_marker_get (s : string) :
  String.prefix "base64," s = true -> String.get 6 s = Some ","%char.
Proof.
  intros Hp. destruct (prefix_append _ _ Hp) as (rest & ->). reflexivity.
Qed.

Lemma get_in (s : string) (n : nat) (c : ascii) :
  String.get n s = Some c -> In c (list_ascii_of_string s).
Proof.
  revert n. induction s as [|a s IH]; intros n; [discriminate|].
  destruct n as [|n]; simpl.
  - intros [= ->]. now left.
  - intros Hg. right. exact (IH n Hg).
Qed.

Lemma comma_free_tail (c : ascii) (s : string) :
  comma_free (String c s) -> comma_free s.
Proof. unfold comma_free. simpl. tauto. Qed.

Lemma comma_free_no_marker (s : string) :
  comma_free s -> String.prefix "base64," s = false.
Proof.
  intros Hfree. destruct (String.prefix "base64," s) eqn:E; [|reflexivity].
  exfalso. apply Hfree. exact (get_in _ _ _ (prefix_marker_get _ E)).
Qed.

Lemma comma_free_not_contains (s : string) :
  comma_free s -> Py.str_contains "base64," s = false.
Proof.
  induction s as [|c s IH]; intros Hfree; [reflexivity|].
  cbn [Py.str_contains]. rewrite (comma_free_no_marker _ Hfree).
  apply IH. exact (comma_free_tail _ _ Hfree).
Qed.

Lemma comma_free_find_none (s : string) :
  comma_free s -> Py.str_find "base64," s = None.
Proof.
  induction s as [|c s IH]; intros Hfree; [reflexivity|].
  cbn [Py.str_find]. rewrite (comma_free_no_marker _ Hfree).
  now rewrite (IH (comma_free_tail _ _ Hfree)).
Qed.

(** Inside a comma-free header followed by the marker, the marker starts
    nowhere but at the end of the header. *)
Lemma header_no_early_marker (c : ascii) (pre p : string) :
  comma_free (String c pre) ->
  String.prefix "base64," (String c (pre +:+ "base64," +:+ p)) = false.
Proof.
  intros Hfree.
  change (String c (pre +:+ "base64," +:+ p))
    with (String c pre +:+ "base64," +:+ p).
  destruct (String.prefix "base64," (String c pre +:+ "base64," +:+ p)) eqn:E;
    [|reflexivity].
  exfalso. apply prefix_marker_get in E.
  destruct (le_lt_dec (String.length (String c pre)) 6) as [Hle | Hlt].
  - pose proof (append_correct2 (String c pre) ("base64," +:+ p)
                  (6 - String.length (String c pre))) as Hget.
    replace (6 - String.length (String c pre) + String.length (String c pre))%nat
      with 6%nat in Hget by lia.
    rewrite E in Hget.
    assert (Hk : (6 - String.length (String c pre) < 6)%nat) by (simpl; lia).
    revert Hget Hk. generalize (6 - String.length (String c pre))%nat as k.
    intros k Hget Hk.
    do 6 (destruct k as [|k]; [discriminate Hget|]). lia.
  - rewrite <- (append_correct1 _ _ _ Hlt) in E.
    apply Hfree. exact (get_in _ _ _ E).
Qed.

Lemma header_find (pre p : string) :
  comma_free pre ->
  Py.str_find "base64," (pre +:+ "base64," +:+ p) = Some (pre, p).
Proof.
  induction pre as [|c pre IH]; intros Hfree.
  - apply str_find_here.
  - change (String c pre +:+ "base64," +:+ p)
      with (String c (pre +:+ "base64," +:+ p)).
    cbn [Py.str_find].
    rewrite (header_no_early_marker c pre p Hfree).
    now rewrite (IH (comma_free_tail _ _ Hfree)).
Qed.

Lemma header_contains (pre p : string) :
  Py.str_contains "base64," (pre +:+ "base64," +:+ p) = true.
Proof.
  induction pre as [|c pre IH].
  - apply str_contains_here.
  - change (String c pre +:+ "base64," +:+ p)
      with (String c (pre +:+ "base64," +:+ p)).
    cbn [Py.str_contains]. rewrite IH. apply orb_true_r.
Qed.

Lemma header_split (pre p : string) :
  comma_free pre -> comma_free p ->
  Py.str_split "base64," (pre +:+ "base64," +:+ p) = [pre; p].
Proof.
  intros Hpre Hp. unfold Py.str_split.
  rewrite !length_append.
  replace (String.length pre + (String.length "base64," + String.length p))%nat
    with (S (String.length pre + 6 + String.length p)) by (simpl; lia).
  cbn [Py.str_split_fuel]. rewrite (header_find _ _ Hpre).
  destruct (String.length pre + 6 + String.length p)%nat; [reflexivity|].
  cbn [Py.str_split_fuel]. now rewrite (comma_free_find_none _ Hp).
Qed.

Lemma strip_header (pre p : string) :
  comma_free pre -> comma_free p ->
  strip_data_url (pre +:+ "base64," +:+ p) = Py.Return p.
Proof.
  intros Hpre Hp. unfold strip_data_url.
  now rewrite header_contains, (header_split _ _ Hpre Hp).
Qed.

Lemma strip_bare (p : string) :
  comma_free p -> strip_data_url p = Py.Return p.
Proof.
  intros Hp. unfold strip_data_url.
  now rewrite (comma_free_not_contains _ Hp).
Qed.

End Marker.

(** [str_split] has fuel to spare: a cut consumes the separator. *)

Lemma str_find_length (sep s a b : string) :
  Py.str_find sep s = Some (a, b) ->
  String.length s = (String.length a + String.length sep + String.length b)%nat.
Proof.
  revert a b. induction s as [|c s IH]; intros a b.
  - cbn [Py.str_find].
    destruct (String.prefix sep "") eqn:E; [|discriminate].
    intros [= <- <-]. destruct (prefix_append _ _ E) as (rest & Hrest).
    destruct sep; [reflexivity | discriminate].
  - cbn [Py.str_find].
    destruct (String.prefix sep (String c s)) eqn:E.
    + intros [= <- <-]. destruct (prefix_append _ _ E) as (rest & ->).
      rewrite str_drop_append, length_append. simpl. lia.
    + destruct (Py.str_find sep s) as [[a' b']|]; [|discriminate].
      intros [= <- <-]. simpl. rewrite (IH a' b' eq_refl). lia.
Qed.

Lemma str_split_fuel_enough (a : ascii) (sep : string) (n m : nat) (s : string) :
  (String.length s <= n)%nat -> (String.length s <= m)%nat ->
  Py.str_split_fuel n (String a sep) s = Py.str_split_fuel m (String a sep) s.
Proof.
  revert m s. induction n as [|n IH]; intros m s Hn Hm.
  - destruct s; [|simpl in Hn; lia]. now destruct m.
  - destruct m as [|m].
    + destruct s; [|simpl in Hm; lia]. reflexivity.
    + cbn [Py.str_split_fuel].
      destruct (Py.str_find (String a sep) s) as [[x y]|] eqn:E; [|reflexivity].
      apply str_find_length in E. simpl in E.
      f_equal. apply IH; lia.
Qed.

(** ** The encoder's alphabet *)

Lemma alphabet_comma_free (c : ascii) : In c Base64.alphabet -> c <> ","%char.
Proof.
  unfold Base64.alphabet. simpl.
  intros Hin Hc. subst c.
  repeat (destruct Hin as [Hin | Hin]; [discriminate Hin|]).
  exact Hin.
Qed.

Lemma char_comma_free (n : N) : Base64.char n <> ","%char.
Proof.
  unfold Base64.char.
  destruct (nth_in_or_default (N.to_nat n) Base64.alphabet "A"%char) as [Hin | ->].
  - now apply alphabet_comma_free.
  - discriminate.
Qed.

Lemma b64encode_comma_free_upto (n : nat) (bs : list byte) :
  (length bs <= n)%nat -> comma_free (Base64.b64encode bs).
Proof.
  revert bs. induction n as [|n IH]; intros bs Hlen.
  - destruct bs; [intros []|simpl in Hlen; lia].
  - destruct bs as [|a [|b [|c rest]]].
    + intros [].
    + simpl. intros [Hc | [Hc | [Hc | [Hc | []]]]];
        try discriminate Hc; now apply char_comma_free in Hc.
    + simpl. intros [Hc | [Hc | [Hc | [Hc | []]]]];
        try discriminate Hc; now apply char_comma_free in Hc.
    + assert (Hrest : comma_free (Base64.b64encode rest))
        by (apply IH; simpl in Hlen; lia).
      cbn [Base64.b64encode]. unfold comma_free.
      cbn [list_ascii_of_string].
      intros [Hc | [Hc | [Hc | [Hc | Hc]]]];
        try (now apply char_comma_free in Hc).
      exact (Hrest Hc).
Qed.

Lemma b64encode_comma_free (bs : list byte) : comma_free (Base64.b64encode bs).
Proof. exact (b64encode_comma_free_upto (length bs) bs (le_n _)). Qed.

(** C7. For every image and every header without a comma (in a data URL the
    first comma is the one that ends the header), the handler strips
    header +:+ "base64," from the front of the base64 encoding and recovers
    exactly that encoding, which it leaves untouched when it comes bare; the
    two requests therefore decode the same bytes and get the same
    response. *)
Theorem C7_data_url_prefix_lossless `{Libs} (bs : list byte) (header : string) :
  comma_free header ->
  strip_data_url (header +:+ "base64," +:+ Base64.b64encode bs) =
    Py.Return (Base64.b64encode bs) /\
  strip_data_url (Base64.b64encode bs) = Py.Return (Base64.b64encode bs) /\
  interpret_sign (image_request (header +:+ "base64," +:+ Base64.b64encode bs)) =
    interpret_sign (image_request (Base64.b64encode bs)).
Proof.
  intros Hheader.
  pose proof (b64encode_comma_free bs) as Hp.
  pose proof (strip_header _ _ Hheader Hp) as Hstrip.
  pose proof (strip_bare _ Hp) as Hbare.
  split; [exact Hstrip|]. split; [exact Hbare|].
  unfold interpret_sign, interpret_sign_with, interpret_sign_try, image_request.
  assert (Hl : forall s, lacks (Some {[ "image" := VStr s ]}) "image" = false).
  { intros s. unfold lacks.
    rewrite lookup_singleton_eq.
    rewrite bool_decide_eq_false_2 by (apply insert_non_empty).
    rewrite bool_decide_eq_true_2 by (eexists; reflexivity).
    reflexivity. }
  rewrite !Hl. unfold get_str. rewrite !lookup_singleton_eq.
  unfold mbind, outcome_bind. cbn [Py.bind].
  now rewrite Hstrip, Hbare.
Qed.

Lemma C7_witness :
  let L := Double.libs Double.tie_files Double.save_fails in
  comma_free "data:image/png;" /\
  strip_data_url ("data:image/png;" +:+ "base64," +:+ Base64.b64encode [x4d; x41; x4e]) =
    Py.Return "TUFO" /\
  @interpret_sign L
     (image_request ("data:image/png;" +:+ "base64," +:+ Base64.b64encode [x4d; x41; x4e])) =
    @interpret_sign L (image_request (Base64.b64encode [x4d; x41; x4e])).
Proof.
  intros L.
  assert (Hfree : comma_free "data:image/png;").
  { unfold comma_free. simpl. intros Hin.
    repeat (destruct Hin as [Hin | Hin]; [discriminate Hin|]). exact Hin. }
  split; [exact Hfree|].
  destruct (@C7_data_url_prefix_lossless L [x4d; x41; x4e] _ Hfree)
    as (Hstrip & _ & Hsame).
  split; [exact Hstrip | exact Hsame].
Defined.

(** ** Malformed requests *)

Lemma lacks_missing (d : gmap string value) (key : string) :
  d !! key = None -> lacks (Some d) key = true.
Proof.
  intros Hd. unfold lacks. rewrite Hd.
  rewrite (bool_decide_eq_false_2 (is_Some None)) by (intros [? [=]]).
  apply orb_true_r.
Qed.

Lemma lacks_present (d : gmap string value) (key : string) (v : value) :
  d !! key = Some v -> lacks (Some d) key = false.
Proof.
  intros Hd. unfold lacks. rewrite Hd.
  rewrite bool_decide_eq_false_2
    by (intros ->; rewrite lookup_empty in Hd; discriminate).
  rewrite bool_decide_eq_true_2 by (eexists; reflexivity).
  reflexivity.
Qed.

(** The two 400 answers of [interpret_sign] on a null or dictionary body. *)
Lemma interpret_sign_400 `{Libs} (data : json_body) :
  (data = None \/ (exists d, data = Some d /\ d !! "image" = None) ->
   interpret_sign data = (Error "Image data is required", 400%nat)) /\
  (forall (d : gmap string value) (image_data payload : string),
     data = Some d ->
     d !! "image" = Some (VStr image_data) ->
     strip_data_url image_data = Py.Return payload ->
     b64decode payload = Py.Raise Py.binascii_Error ->
     interpret_sign data = (Error "Invalid base64 data", 400%nat)).
Proof.
  split.
  - intros [-> | (d & -> & Hd)].
    + reflexivity.
    + unfold interpret_sign, interpret_sign_with, interpret_sign_try.
      now rewrite (lacks_missing _ _ Hd).
  - intros d image_data payload -> Hd Hstrip Hdec.
    unfold interpret_sign, interpret_sign_with, interpret_sign_try.
    rewrite (lacks_present _ _ _ Hd). unfold get_str. rewrite Hd.
    unfold mbind, outcome_bind. cbn [Py.bind].
    rewrite Hstrip. cbn [Py.bind]. now rewrite Hdec.
Qed.

(** On a JSON null and on a JSON object, the handler is [interpret_sign]. *)
Lemma interpret_sign_request_null `{Libs} :
  interpret_sign_request (Parsed JNull) = interpret_sign None.
Proof. reflexivity. Qed.

Lemma interpret_sign_request_dict `{Libs} (d : gmap string value) :
  interpret_sign_request (Parsed (JDict d)) = interpret_sign (Some d).
Proof.
  unfold interpret_sign_request, falsy, contains.
  unfold interpret_sign, interpret_sign_with, interpret_sign_try, lacks.
  destruct (bool_decide (d = ∅)); [reflexivity|].
  now destruct (bool_decide (is_Some (d !! "image"))).
Qed.

(** The status of an answer is 200, 400 or 500. *)
Lemma interpret_sign_status `{Libs} (data : json_body) :
  (interpret_sign data).2 = 200%nat \/
  (interpret_sign data).2 = 400%nat \/
  (interpret_sign data).2 = 500%nat.
Proof.
  unfold interpret_sign, interpret_sign_with, interpret_sign_try.
  destruct (lacks data "image"); [now right; left|].
  unfold mbind, outcome_bind.
  destruct (get_str data "image") as [s|[|]]; cbn [Py.bind]; [|tauto..].
  destruct (strip_data_url s) as [p|[|]]; cbn [Py.bind]; [|tauto..].
  destruct (b64decode p) as [image_bytes|[|]]; cbn [Py.bind]; [|tauto..].
  destruct (collect image_bytes models []) as [|r rest].
  - now right; right.
  - destruct (arbitrate_best (r :: rest)) as (best & _ & _ & ->);
      [discriminate|]. now left.
Qed.

(** C8 (as the code has it). A JSON null body and a JSON object without an
    "image" key are answered with status 400 and the error object "Image
    data is required"; a JSON object whose image string, once the data-URL
    header is stripped, makes the base64 decoder raise [binascii.Error] is
    answered with status 400 and the error object "Invalid base64 data".
    Whatever [request.json] does, the caller gets a response with status
    200, 400 or 500, not an exception. *)
Theorem C8_object_body_is_400 `{Libs} :
  interpret_sign_request (Parsed JNull) =
    (Error "Image data is required", 400%nat) /\
  (forall d : gmap string value,
     d !! "image" = None ->
     interpret_sign_request (Parsed (JDict d)) =
       (Error "Image data is required", 400%nat)) /\
  (forall (d : gmap string value) (image_data payload : string),
     d !! "image" = Some (VStr image_data) ->
     strip_data_url image_data = Py.Return payload ->
     b64decode payload = Py.Raise Py.binascii_Error ->
     interpret_sign_request (Parsed (JDict d)) =
       (Error "Invalid base64 data", 400%nat)) /\
  (forall r : request_json,
     (interpret_sign_request r).2 = 200%nat \/
     (interpret_sign_request r).2 = 400%nat \/
     (interpret_sign_request r).2 = 500%nat).
Proof.
  split; [reflexivity|]. split; [|split].
  - intros d Hd. rewrite interpret_sign_request_dict.
    apply (proj1 (interpret_sign_400 (Some d))). right. now exists d.
  - intros d image_data payload Hd Hstrip Hdec.
    rewrite interpret_sign_request_dict.
    exact (proj2 (interpret_sign_400 (Some d)) d image_data payload
             eq_refl Hd Hstrip Hdec).
  - intros [|j]; [now right; right|].
    destruct j as [|b|q|s|l|d];
      try (unfold interpret_sign_request;
           destruct (falsy _); [now right; left|];
           destruct (contains _ _) as [[|]|e]; cbn; tauto).
    rewrite interpret_sign_request_dict. apply interpret_sign_status.
Qed.

Lemma C8_witness :
  let L := Double.libs Double.tie_files Double.save_fails in
  @interpret_sign_request L (Parsed (JDict {[ "picture" := VStr "TUFO" ]})) =
    (Error "Image data is required", 400%nat) /\
  @b64decode L "TUF" = Py.Raise Py.binascii_Error /\
  @interpret_sign_request L
     (Parsed (JDict {[ "image" := VStr "data:image/png;base64,TUF" ]})) =
    (Error "Invalid base64 data", 400%nat).
Proof.
  intros L.
  destruct (@C8_object_body_is_400 L) as (_ & Hmissing & Hbad & _).
  split; [|split].
  - apply Hmissing. vm_compute; reflexivity.
  - vm_compute; reflexivity.
  - apply (Hbad _ "data:image/png;base64,TUF" "TUF"); vm_compute; reflexivity.
Defined.

(** C8 (as stated) fails.  A string with a character outside ASCII is
    refused by the decoder with [ValueError], not [binascii.Error], and the
    answer is the 500 error; so is the answer to a body that is the number
    5 or the boolean true, which the test of line 89 cannot search for
    'image', and to a request on which [request.json] raises. *)
Lemma C8_counterexample :
  let L := Double.libs Double.tie_files Double.save_fails in
  let internal :=
    (Error "Internal server error processing sign interpretation", 500%nat) in
  @b64decode L (String (ascii_of_nat 233) "") = Py.Raise Py.Exception /\
  @interpret_sign_request L
     (Parsed (JDict {[ "image" := VStr (String (ascii_of_nat 233) "") ]})) =
    internal /\
  @interpret_sign_request L (Parsed (JNum 5)) = internal /\
  @interpret_sign_request L (Parsed (JBool true)) = internal /\
  @interpret_sign_request L Raises = internal.
Proof.
  intros L internal. repeat split; vm_compute; reflexivity.
Qed.

(** Characters outside the alphabet are skipped by the decoder, not
    rejected: the request goes on to the classifiers. *)
Example junk_is_not_rejected :
  @interpret_sign (Double.libs Double.tie_files Double.save_fails)
    (image_request "!!!!") = no_result.
Proof. vm_compute. reflexivity. Qed.

(** An image that is not a string, and a string with a character outside
    ASCII, end in the second [except] clause. *)
Example image_not_a_string :
  @interpret_sign (Double.libs Double.tie_files Double.save_fails)
    (Some {[ "image" := VOther ]}) =
  (Error "Internal server error processing sign interpretation", 500%nat).
Proof. vm_compute. reflexivity. Qed.

Example image_not_ascii :
  @interpret_sign (Double.libs Double.tie_files Double.save_fails)
    (image_request (String (ascii_of_nat 233) "")) =
  (Error "Internal server error processing sign interpretation", 500%nat).
Proof. vm_compute. reflexivity. Qed.

(** ** Text to speech *)

(** C9 (as the code has it). The handler stores the audio under the fixed
    name "temp_audio.mp3", whatever the request; when [save] returns and the
    file is read back, the response carries the audio as a data URL and the
    file is removed before the handler returns. *)
Theorem C9_fixed_name_removed_on_success `{Libs}
    (d : gmap string value) (text : value) (language lang : string)
    (fs fs1 : FS) (audio : list byte) :
  d !! "text" = Some text ->
  d !! "language" = Some (VStr language) ->
  base_language language = Py.Return lang ->
  gTTS_save text lang "temp_audio.mp3" fs = (fs1, Py.Return tt) ->
  fs1 !! "temp_audio.mp3" = Some audio ->
  text_to_speech_endpoint (Some d) fs =
    (delete "temp_audio.mp3" fs1,
     ok (Audio ("data:audio/mpeg;base64," +:+ Base64.b64encode audio))) /\
  delete "temp_audio.mp3" fs1 !! "temp_audio.mp3" = None.
Proof.
  intros Htext Hlang Hbase Hsave Hread.
  split; [|apply lookup_delete_eq].
  unfold text_to_speech_endpoint, text_to_speech_try.
  rewrite (lacks_present _ _ _ Htext), (lacks_present _ _ _ Hlang).
  cbn [orb mbind option_bind]. rewrite Htext.
  unfold get_str. rewrite Hlang.
  unfold mbind, outcome_bind. cbn [Py.bind]. rewrite Hbase.
  unfold temp_filename. rewrite Hsave, Hread.
  rewrite bool_decide_eq_true_2 by (eexists; reflexivity).
  reflexivity.
Qed.

Lemma C9_witness :
  let L := Double.libs [] (Double.save_ok [x49; x44; x33]) in
  @text_to_speech_endpoint L (speech_request "hello" "en-US") ∅ =
    (∅, ok (Audio "data:audio/mpeg;base64,SUQz")).
Proof.
  intros L.
  set (d := <["text" := VStr "hello"]> {[ "language" := VStr "en-US" ]}
            : gmap string value).
  assert (Htext : d !! "text" = Some (VStr "hello")) by (vm_compute; reflexivity).
  assert (Hlang : d !! "language" = Some (VStr "en-US"))
    by (vm_compute; reflexivity).
  assert (Hbase : base_language "en-US" = Py.Return "en")
    by (vm_compute; reflexivity).
  assert (Hsave : @gTTS_save L (VStr "hello") "en" "temp_audio.mp3" ∅ =
                  ({[ "temp_audio.mp3" := [x49; x44; x33] ]}, Py.Return tt))
    by reflexivity.
  assert (Hread : ({[ "temp_audio.mp3" := [x49; x44; x33] ]} : FS)
                    !! "temp_audio.mp3" = Some [x49; x44; x33])
    by apply lookup_singleton_eq.
  destruct (@C9_fixed_name_removed_on_success L d _ _ _ _ _ _
              Htext Hlang Hbase Hsave Hread) as [Hcall _].
  unfold speech_request. fold d. rewrite Hcall. reflexivity.
Defined.

(** C9 (as stated) fails: when [save] raises after it has opened the file,
    the handler returns its 500 response and "temp_audio.mp3" stays on the
    file system; two different requests leave a file of the same name. *)
Lemma C9_counterexample :
  let L := Double.libs [] Double.save_fails in
  (@text_to_speech_endpoint L (speech_request "hello" "en-US") ∅).1
    !! "temp_audio.mp3" = Some [] /\
  (@text_to_speech_endpoint L (speech_request "bonjour" "fr") ∅).1
    !! "temp_audio.mp3" = Some [] /\
  ~ @scoped_temporary_file L.
Proof.
  intros L.
  assert (Hleak : (@text_to_speech_endpoint L (speech_request "hello" "en-US") ∅).1
                    !! "temp_audio.mp3" = Some []) by (vm_compute; reflexivity).
  split; [exact Hleak|]. split; [vm_compute; reflexivity|].
  intros Hscoped.
  destruct (Hscoped (speech_request "hello" "en-US") ∅ "temp_audio.mp3")
    as [x Hx].
  - rewrite Hleak. eexists. reflexivity.
  - rewrite lookup_empty in Hx. discriminate.
Qed.

(** ** The doubles at work *)

Example b64encode_Man : Base64.b64encode [x4d; x61; x6e] = "TWFu".
Proof. reflexivity. Qed.

Example b64encode_padding : Base64.b64encode [x4d; x61] = "TWE=".
Proof. reflexivity. Qed.

Example decode_Man : Double.decode "TWFu" = Py.Return [x4d; x61; x6e].
Proof. vm_compute. reflexivity. Qed.

Example decode_padding : Double.decode "TWE=" = Py.Return [x4d; x61].
Proof. vm_compute. reflexivity. Qed.

Example decode_incomplete : Double.decode "TWE" = Py.Raise Py.binascii_Error.
Proof. vm_compute. reflexivity. Qed.

Example str_split_header :
  Py.str_split "base64," "data:image/png;base64,TWFu" =
  ["data:image/png;"; "TWFu"].
Proof. vm_compute. reflexivity. Qed.

Example base_language_region : base_language "en-US" = Py.Return "en".
Proof. vm_compute. reflexivity. Qed.

Example argmax_first_of_equals :
  Np.argmax [0.2; 0.4; 0.4]%Q = Some 1%nat /\ Np.max [0.2; 0.4; 0.4]%Q = Some 0.4%Q.
Proof. split; reflexivity. Qed.

(** With the faulty table only the ISL model answers, and its answer is
    the response. *)
Example faulty_table_still_answers :
  @interpret_sign (Double.libs Double.faulty_files Double.save_fails)
    (image_request "TUFO") = ok (Interpretation "C" 0.8%Q "isl").
Proof. vm_compute. reflexivity. Qed.

(* ===================================================================== *)
(** * Further properties of the handlers                                  *)
(* ===================================================================== *)

(** ** Cutting a string at a separator *)

Lemma append_assoc (a b c : string) : (a +:+ b) +:+ c = a +:+ b +:+ c.
Proof.
  induction a as [|k a IH]; [reflexivity|].
  change (String k ((a +:+ b) +:+ c) = String k (a +:+ b +:+ c)).
  now f_equal.
Qed.

Lemma prefix_app_mono (sep s rest : string) :
  String.prefix sep s = true -> String.prefix sep (s +:+ rest) = true.
Proof.
  intros Hp. destruct (prefix_append _ _ Hp) as (r & ->).
  rewrite append_assoc. apply prefix_of_append.
Qed.

Lemma str_find_app (sep s a b : string) :
  Py.str_find sep s = Some (a, b) -> s = a +:+ sep +:+ b.
Proof.
  revert a b. induction s as [|c s IH]; intros a b; cbn [Py.str_find].
  - destruct (String.prefix sep "") eqn:E; [|discriminate].
    intros [= <- <-]. destruct (prefix_append _ _ E) as (rest & Hrest).
    destruct sep; [reflexivity | discriminate].
  - destruct (String.prefix sep (String c s)) eqn:E.
    + intros [= <- <-]. destruct (prefix_append _ _ E) as (rest & ->).
      now rewrite str_drop_append.
    + destruct (Py.str_find sep s) as [[a' b']|]; [|discriminate].
      intros [= <- <-]. now rewrite (IH a' b' eq_refl).
Qed.

Lemma str_find_none_iff (sep s : string) :
  Py.str_find sep s = None <-> Py.str_contains sep s = false.
Proof.
  induction s as [|c s IH]; cbn [Py.str_find Py.str_contains].
  - destruct (String.prefix sep ""); simpl; split; congruence.
  - destruct (String.prefix sep (String c s)); simpl; [split; congruence|].
    rewrite <- IH. destruct (Py.str_find sep s) as [[a b]|]; split; congruence.
Qed.

(** The text before the leftmost occurrence holds no occurrence. *)
Lemma str_find_before (k : ascii) (sep s a b : string) :
  Py.str_find (String k sep) s = Some (a, b) ->
  Py.str_contains (String k sep) a = false.
Proof.
  revert a b. induction s as [|c s IH]; intros a b; cbn [Py.str_find].
  - discriminate.
  - destruct (String.prefix (String k sep) (String c s)) eqn:E.
    + intros [= <- <-]. reflexivity.
    + destruct (Py.str_find (String k sep) s) as [[a' b']|] eqn:F;
        [|discriminate].
      intros [= <- <-]. cbn [Py.str_contains].
      rewrite (IH a' b' eq_refl), orb_false_r.
      destruct (String.prefix (String k sep) (String c a')) eqn:G;
        [|reflexivity].
      apply (prefix_app_mono _ _ (String k sep +:+ b')) in G.
      rewrite (str_find_app _ _ _ _ F) in E.
      change (String c a' +:+ String k sep +:+ b')
        with (String c (a' +:+ String k sep +:+ b')) in G.
      congruence.
Qed.

(** With fuel for one more cut than was made, [split] yields at least the
    text before the first separator and a second element after it. *)
Lemma str_split_second (k : ascii) (sep s : string) :
  Py.str_contains (String k sep) s = true ->
  exists (a p : string) (more : list string),
    Py.str_split (String k sep) s = a :: p :: more /\
    Py.str_contains (String k sep) a = false /\
    Py.str_contains (String k sep) p = false.
Proof.
  intros Hc. unfold Py.str_split.
  destruct (Py.str_find (String k sep) s) as [[a b]|] eqn:F.
  2:{ apply str_find_none_iff in F. congruence. }
  pose proof (str_find_length _ _ _ _ F) as Hlen. simpl in Hlen.
  destruct (String.length s) as [|n] eqn:Hs; [lia|].
  cbn [Py.str_split_fuel]. rewrite F.
  pose proof (str_find_before _ _ _ _ _ F) as Ha.
  destruct n as [|n].
  - assert (b = ""%string) by (destruct b; [reflexivity | simpl in Hlen; lia]).
    subst b. exists a, ""%string, [].
    split; [reflexivity | split; [exact Ha | reflexivity]].
  - cbn [Py.str_split_fuel].
    destruct (Py.str_find (String k sep) b) as [[p c]|] eqn:G.
    + exists a, p, (Py.str_split_fuel n (String k sep) c).
      split; [reflexivity | split; [exact Ha|]].
      exact (str_find_before _ _ _ _ _ G).
    + exists a, b, []. split; [reflexivity | split; [exact Ha|]].
      now apply str_find_none_iff.
Qed.

(** X1. Stripping never takes the [IndexError] path, and what it returns
    holds no "base64," marker: stripping it again changes nothing. *)
Theorem strip_data_url_total_idempotent (image_data : string) :
  exists payload : string,
    strip_data_url image_data = Py.Return payload /\
    marker_free payload /\
    strip_data_url payload = Py.Return payload.
Proof.
  unfold strip_data_url, marker_free.
  destruct (Py.str_contains "base64," image_data) eqn:E.
  - destruct (str_split_second _ _ _ E) as (a & p & more & Hs & _ & Hp).
    exists p. rewrite Hs, Hp. split; [reflexivity | split; reflexivity].
  - exists image_data. rewrite E. split; [reflexivity | split; reflexivity].
Qed.

(** X2. When the string holds a second "base64," marker, only the text
    between the first two markers is kept: what follows the second marker
    is dropped. *)
Theorem strip_data_url_cuts_at_second_marker (header payload tail : string) :
  comma_free header -> comma_free payload ->
  strip_data_url
    (header +:+ "base64," +:+ payload +:+ "base64," +:+ tail) =
  Py.Return payload.
Proof.
  intros Hh Hp. unfold strip_data_url.
  rewrite header_contains. unfold Py.str_split.
  rewrite !length_append.
  replace (String.length header +
           (String.length "base64," +
            (String.length payload +
             (String.length "base64," + String.length tail))))%nat
    with (S (S (String.length header + String.length payload
                + String.length tail + 12))) by (simpl; lia).
  cbn [Py.str_split_fuel].
  rewrite (header_find _ _ Hh), (header_find _ _ Hp). reflexivity.
Qed.

Lemma strip_data_url_cuts_witness :
  comma_free "data:image/png;" /\ comma_free "TUFO" /\
  strip_data_url
    ("data:image/png;" +:+ "base64," +:+ "TUFO" +:+ "base64," +:+ "AAAA") =
  Py.Return "TUFO".
Proof.
  assert (H1 : comma_free "data:image/png;").
  { unfold comma_free. simpl. intros Hin.
    repeat (destruct Hin as [Hin | Hin]; [discriminate Hin|]). exact Hin. }
  assert (H2 : comma_free "TUFO").
  { unfold comma_free. simpl. intros Hin.
    repeat (destruct Hin as [Hin | Hin]; [discriminate Hin|]). exact Hin. }
  split; [exact H1|]. split; [exact H2|].
  exact (strip_data_url_cuts_at_second_marker _ _ "AAAA" H1 H2).
Defined.

(** ** Language codes *)

Lemma prefix_empty (s : string) : String.prefix "" s = true.
Proof. now destruct s. Qed.

Lemma dash_contains (s : string) :
  Py.str_contains "-" s = false <-> dash_free s.
Proof.
  unfold dash_free. induction s as [|c s IH]; [simpl; tauto|].
  cbn [Py.str_contains String.prefix list_ascii_of_string].
  rewrite prefix_empty.
  destruct (ascii_dec "-" c) as [<-|Hne]; simpl.
  - split; [discriminate | intros Hn; exfalso; apply Hn; now left].
  - rewrite IH. split.
    + intros Hs [Hc | Hin]; [congruence | exact (Hs Hin)].
    + intros Hs Hin. apply Hs. now right.
Qed.

(** X3. [base_language] never takes the [IndexError] path.  A code without
    a hyphen is returned as it is; otherwise the result is the text before
    the first hyphen.  In both cases the result holds no hyphen. *)
Theorem base_language_cuts_at_first_hyphen (language : string) :
  exists lang : string,
    base_language language = Py.Return lang /\
    dash_free lang /\
    ((dash_free language /\ lang = language) \/
     (exists region : string, language = lang +:+ "-" +:+ region)).
Proof.
  unfold base_language.
  destruct (Py.str_contains "-" language) eqn:E.
  - destruct (Py.str_find "-" language) as [[a b]|] eqn:F.
    2:{ apply str_find_none_iff in F. congruence. }
    pose proof (str_find_length _ _ _ _ F) as Hlen. simpl in Hlen.
    exists a. unfold Py.str_split.
    destruct (String.length language) as [|n]; [lia|].
    cbn [Py.str_split_fuel]. rewrite F.
    split; [reflexivity|]. split.
    + apply dash_contains. exact (str_find_before _ _ _ _ _ F).
    + right. exists b. exact (str_find_app _ _ _ _ F).
  - exists language. split; [reflexivity|].
    apply dash_contains in E. split; [exact E | left; split; [exact E | reflexivity]].
Qed.

(** ** More on [interpret_sign] *)


(** X5. Only the "image" entry of the body is read: two bodies with the
    same "image" entry (or both without one) get the same response, so a
    "model_type" entry in the request has no effect. *)
Theorem interpret_sign_reads_image_only `{Libs} (d d' : gmap string value) :
  d !! "image" = d' !! "image" ->
  interpret_sign (Some d) = interpret_sign (Some d').
Proof.
  intros Heq.
  unfold interpret_sign, interpret_sign_with, interpret_sign_try, get_str.
  destruct (d !! "image") as [v|] eqn:Hd.
  - symmetry in Heq.
    now rewrite (lacks_present _ _ _ Hd), (lacks_present _ _ _ Heq), Heq.
  - symmetry in Heq.
    now rewrite (lacks_missing _ _ Hd), (lacks_missing _ _ Heq).
Qed.

Lemma interpret_sign_reads_image_only_witness :
  let L := Double.libs Double.tie_files Double.save_fails in
  let d : gmap string value := {[ "image" := VStr "TUFO" ]} in
  let d' : gmap string value :=
    <["model_type" := VStr "isl"]> {[ "image" := VStr "TUFO" ]} in
  d !! "image" = d' !! "image" /\
  @interpret_sign L (Some d) = @interpret_sign L (Some d').
Proof.
  intros L d d'.
  assert (Heq : d !! "image" = d' !! "image") by (vm_compute; reflexivity).
  split; [exact Heq|].
  exact (@interpret_sign_reads_image_only L d d' Heq).
Defined.





(** X8. A request yields at most one candidate per SymbolSet: the model
    names in [results] are pairwise different and there are at most three
    of them. *)
Theorem results_one_per_symbol_set `{Libs} (image_bytes : list byte) :
  NoDup (map model (collect image_bytes models [])) /\
  (length (collect image_bytes models []) <= 3)%nat.
Proof.
  pose proof (collect_order image_bytes models) as Hsub.
  rewrite models_names in Hsub. split.
  - eapply sublist_NoDup; [|exact Hsub].
    apply (bool_decide_unpack _). vm_compute. exact I.
  - apply sublist_length in Hsub. now rewrite length_map in Hsub.
Qed.

(** X9. A model whose file is missing or failed to load never answers:
    every entry of [results] comes from a path of [MODEL_PATHS] that exists
    and whose model loaded, and is what that model's turn of the loop
    produced. *)
Theorem results_come_from_loaded_models `{Libs}
    (image_bytes : list byte) (r : result) :
  In r (collect image_bytes models []) ->
  exists (path : string) (mdl : Model),
    In (model r, path) MODEL_PATHS /\
    path_exists path = true /\
    load_model path = Some mdl /\
    classify_one image_bytes (model r) (Some mdl) = Some r.
Proof.
  intros Hin. destruct (collect_in _ _ _ Hin) as (m & Hm & Hone).
  unfold models, load_models in Hm. apply in_map_iff in Hm.
  destruct Hm as ([name path] & Heq & Hpath). injection Heq as Hname Hm.
  destruct m as [mdl|]; [|discriminate Hone].
  exists path, mdl. subst name.
  destruct (path_exists path); [|discriminate].
  split; [exact Hpath|]. split; [reflexivity|]. split; [exact Hm | exact Hone].
Qed.

Lemma results_come_from_loaded_models_witness :
  let L := Double.libs Double.weak_files Double.save_fails in
  let r := mk_result "isl" "C" 0.4%Q in
  In r (@collect L [x4d; x41; x4e] (@models L) []) /\
  exists (path : string) (mdl : Model),
    In (model r, path) MODEL_PATHS /\
    @path_exists L path = true /\
    @load_model L path = Some mdl /\
    @classify_one L [x4d; x41; x4e] (model r) (Some mdl) = Some r.
Proof.
  intros L r.
  assert (Hin : In r (@collect L [x4d; x41; x4e] (@models L) []))
    by (vm_compute; left; reflexivity).
  split; [exact Hin|].
  exact (@results_come_from_loaded_models L _ r Hin).
Defined.

(** X10. Preprocessing returns [None] in exactly two cases: the image
    decoder refuses the bytes, or the model type is none of "asl", "digit",
    "isl". *)
Theorem preprocess_none_iff `{Libs} (image_bytes : list byte) (mt : string) :
  preprocess_image_for_keras image_bytes mt = None <->
  Image_open image_bytes = None \/
  (mt <> "asl" /\ mt <> "digit" /\ mt <> "isl").
Proof.
  unfold preprocess_image_for_keras.
  destruct (Image_open image_bytes) as [img|].
  - destruct (String.eqb_spec mt "asl") as [->|Hasl].
    { split; [discriminate | intros [[=] | (Hn & _)]; congruence]. }
    destruct (String.eqb_spec mt "digit") as [->|Hdigit].
    { split; [discriminate | intros [[=] | (_ & Hn & _)]; congruence]. }
    destruct (String.eqb_spec mt "isl") as [->|Hisl].
    { split; [discriminate | intros [[=] | (_ & _ & Hn)]; congruence]. }
    simpl. split; [auto | reflexivity].
  - split; [auto | reflexivity].
Qed.

(** ** More on [text_to_speech_endpoint] *)

(** X11. When [request.json] is the JSON null ([None]) or a JSON object
    that lacks "text" or "language", the answer is the 400 error and the
    file system is left as it was: the synthesizer is not called. *)
Theorem text_to_speech_missing_fields `{Libs} (data : json_body) (fs : FS) :
  data = None \/
  (exists d, data = Some d /\ (d !! "text" = None \/ d !! "language" = None)) ->
  text_to_speech_endpoint data fs = (fs, tts_required).
Proof.
  unfold text_to_speech_endpoint, text_to_speech_try.
  intros [-> | (d & -> & [Hd | Hd])].
  - reflexivity.
  - now rewrite (lacks_missing _ _ Hd).
  - rewrite (lacks_missing _ _ Hd), orb_true_r. reflexivity.
Qed.

Lemma text_to_speech_missing_fields_witness :
  let L := Double.libs [] (Double.save_ok [x49]) in
  @text_to_speech_endpoint L (Some {[ "text" := VStr "hello" ]}) ∅ =
    (∅, tts_required).
Proof.
  intros L. apply (@text_to_speech_missing_fields L).
  right. eexists. split; [reflexivity|]. right. vm_compute; reflexivity.
Defined.

(** X12. When the synthesizer raises, or returns without the file being
    there to read back, the answer is the 500 error and the file system is
    returned exactly as the synthesizer left it: the handler removes
    nothing on these paths. *)
Theorem text_to_speech_failure_keeps_files `{Libs}
    (d : gmap string value) (text : value) (language lang : string)
    (fs fs1 : FS) (o : Py.outcome unit) :
  d !! "text" = Some text ->
  d !! "language" = Some (VStr language) ->
  base_language language = Py.Return lang ->
  gTTS_save text lang "temp_audio.mp3" fs = (fs1, o) ->
  (exists e, o = Py.Raise e) \/ fs1 !! "temp_audio.mp3" = None ->
  text_to_speech_endpoint (Some d) fs = (fs1, tts_internal).
Proof.
  intros Htext Hlang Hbase Hsave Hfail.
  unfold text_to_speech_endpoint, text_to_speech_try.
  rewrite (lacks_present _ _ _ Htext), (lacks_present _ _ _ Hlang).
  cbn [orb mbind option_bind]. rewrite Htext.
  unfold get_str. rewrite Hlang.
  unfold mbind, outcome_bind. cbn [Py.bind]. rewrite Hbase.
  unfold temp_filename. rewrite Hsave.
  destruct o as [[]|e].
  - destruct Hfail as [(e & [=]) | Hnone]. now rewrite Hnone.
  - reflexivity.
Qed.

Lemma text_to_speech_failure_keeps_files_witness :
  let L := Double.libs [] Double.save_fails in
  @text_to_speech_endpoint L (speech_request "hello" "en-US")
     {[ "notes.txt" := [x68] ]} =
  (<["temp_audio.mp3" := []]> {[ "notes.txt" := [x68] ]}, tts_internal).
Proof.
  intros L.
  set (d := <["text" := VStr "hello"]> {[ "language" := VStr "en-US" ]}
            : gmap string value).
  assert (Htext : d !! "text" = Some (VStr "hello")) by (vm_compute; reflexivity).
  assert (Hlang : d !! "language" = Some (VStr "en-US"))
    by (vm_compute; reflexivity).
  assert (Hbase : base_language "en-US" = Py.Return "en")
    by (vm_compute; reflexivity).
  exact (@text_to_speech_failure_keeps_files L d _ _ _ _ _ _
           Htext Hlang Hbase eq_refl (or_introl (ex_intro _ _ eq_refl))).
Defined.


(** ** [detect_hands_endpoint] *)

Lemma extract_landmarks_acc (hand : list Landmark) (acc : list point) :
  extract_landmarks hand acc = acc ++ points_of hand.
Proof.
  revert acc. induction hand as [|lm hand IH]; intros acc; simpl.
  - now rewrite app_nil_r.
  - rewrite IH, <- app_assoc. reflexivity.
Qed.

Lemma annotate_hands_list `{Vision} (hands : list (list Landmark))
    (img img' : Mat) (acc l : list (list point)) :
  annotate_hands hands img acc = Py.Return (img', l) ->
  l = acc ++ map points_of hands.
Proof.
  revert img acc. induction hands as [|h hands IH]; intros img acc; simpl.
  - intros Heq. inversion Heq; subst. now rewrite app_nil_r.
  - unfold mbind, outcome_bind.
    destruct (draw_landmarks img h) as [img1|e]; cbn [Py.bind]; [|discriminate].
    intros Hrest. rewrite (IH _ _ Hrest), extract_landmarks_acc, <- app_assoc.
    reflexivity.
Qed.

(** The handler once the request has decoded to an image. *)
Lemma detect_hands_decoded `{Libs} `{Vision}
    (data : json_body) (image_bytes : list byte) :
  decodes_to data image_bytes ->
  detect_hands_try data =
    (img_np ← imdecode image_bytes;
     match img_np with
     | None => Py.Return (HandsError "Could not decode image", 400%nat)
     | Some img_np =>
         img_rgb ← cvtColor img_np;
         results ← hands_process img_rgb;
         '(hands_detected, num_hands, (annotated, hand_landmarks_list)) ←
           (if truthy results then
              r ← annotate_hands (default [] results) img_np [];
              Py.Return (true, length (default [] results), r)
            else Py.Return (false, 0%nat, (img_np, [])));
         buffer ← imencode annotated;
         Py.Return
           (Hands hands_detected num_hands hand_landmarks_list
              ("data:image/png;base64," +:+ Base64.b64encode buffer),
            200%nat)
     end).
Proof.
  intros (Hlacks & s & p & Hget & Hstrip & Hdec).
  unfold detect_hands_try. rewrite Hlacks.
  unfold mbind at 1 2 3, outcome_bind at 1 2 3.
  rewrite Hget. cbn [Py.bind]. rewrite Hstrip. cbn [Py.bind].
  rewrite Hdec. reflexivity.
Qed.

Lemma png_header_comma_free : comma_free "data:image/png;".
Proof.
  unfold comma_free. simpl. intros Hin.
  repeat (destruct Hin as [Hin | Hin]; [discriminate Hin|]). exact Hin.
Qed.

(** X14. Every body with landmarks the handler returns has status 200,
    [numHands] equal to the number of landmark lists, [handsDetected] true
    exactly when that number is not zero, and an [annotatedImage] that is a
    "data:image/png;base64," URL from which the stripping code of the
    handlers recovers the base64 text. *)
Theorem detect_hands_success_shape `{Libs} `{Vision} (data : json_body)
    (d : bool) (n : nat) (l : list (list point)) (a : string) (st : nat) :
  detect_hands_endpoint data = (Hands d n l a, st) ->
  st = 200%nat /\
  n = length l /\
  d = negb (n =? 0)%nat /\
  exists png : list byte,
    a = "data:image/png;base64," +:+ Base64.b64encode png /\
    strip_data_url a = Py.Return (Base64.b64encode png).
Proof.
  unfold detect_hands_endpoint, detect_hands_try.
  destruct (lacks data "image"); [discriminate|].
  unfold mbind, outcome_bind.
  destruct (get_str data "image") as [s|[|]]; cbn [Py.bind]; try discriminate.
  destruct (strip_data_url s) as [p|[|]]; cbn [Py.bind]; try discriminate.
  destruct (b64decode p) as [bs|[|]]; cbn [Py.bind]; try discriminate.
  destruct (imdecode bs) as [[img|]|[|]]; cbn [Py.bind]; try discriminate.
  destruct (cvtColor img) as [rgb|[|]]; cbn [Py.bind]; try discriminate.
  destruct (hands_process rgb) as [results|[|]]; cbn [Py.bind];
    try discriminate.
  assert (Hurl : forall png,
             strip_data_url ("data:image/png;base64," +:+ Base64.b64encode png)
             = Py.Return (Base64.b64encode png)).
  { intros png.
    exact (strip_header "data:image/png;" _ png_header_comma_free
             (b64encode_comma_free png)). }
  destruct (truthy results) eqn:Ht.
  - destruct results as [[|h hands]|]; try discriminate Ht.
    change (default [] (Some (h :: hands))) with (h :: hands).
    destruct (annotate_hands (h :: hands) img []) as [[img' l']|[|]] eqn:Ha;
      cbn [Py.bind]; try discriminate.
    destruct (imencode img') as [png|[|]]; cbn [Py.bind]; try discriminate.
    intros [= <- <- <- <- <-].
    apply annotate_hands_list in Ha. subst l'.
    rewrite app_nil_l, length_map.
    repeat split. exists png. split; [reflexivity | apply Hurl].
  - cbn [Py.bind].
    destruct (imencode img) as [png|[|]]; cbn [Py.bind]; try discriminate.
    intros [= <- <- <- <- <-].
    repeat split. exists png. split; [reflexivity | apply Hurl].
Qed.

Lemma detect_hands_success_shape_witness :
  let L := Double.libs [] Double.save_fails in
  let V := VisionDouble.vision in
  let hand := points_of VisionDouble.two_landmarks in
  let url := "data:image/png;base64," +:+
             Base64.b64encode [xff; xff; x2a; x2a; x2a; x2a] in
  @detect_hands_endpoint L V (image_request "//8=") =
    (Hands true 2 [hand; hand] url, 200%nat) /\
  strip_data_url url =
    Py.Return (Base64.b64encode [xff; xff; x2a; x2a; x2a; x2a]).
Proof.
  intros L V hand url.
  assert (Hcall : @detect_hands_endpoint L V (image_request "//8=") =
                  (Hands true 2 [hand; hand] url, 200%nat))
    by (vm_compute; reflexivity).
  split; [exact Hcall|].
  destruct (@detect_hands_success_shape L V _ _ _ _ _ _ Hcall)
    as (_ & _ & _ & png & Hpng & Hstrip).
  rewrite Hstrip. f_equal.
  unfold url in Hpng.
  apply (f_equal (Py.str_drop 22)) in Hpng.
  rewrite !(str_drop_append "data:image/png;base64,") in Hpng.
  now symmetry.
Defined.

(** X15. The landmark lists of the response are those of the detector, hand
    by hand and landmark by landmark in the detector's order, each landmark
    reduced to its x, y and z; [numHands] is the detector's number of
    hands. *)
Theorem detect_hands_landmarks_in_order `{Libs} `{Vision}
    (data : json_body) (image_bytes : list byte) (img rgb : Mat)
    (results : option (list (list Landmark)))
    (d : bool) (n : nat) (l : list (list point)) (a : string) (st : nat) :
  decodes_to data image_bytes ->
  imdecode image_bytes = Py.Return (Some img) ->
  cvtColor img = Py.Return rgb ->
  hands_process rgb = Py.Return results ->
  detect_hands_endpoint data = (Hands d n l a, st) ->
  l = map points_of (default [] results) /\
  n = length (default [] results).
Proof.
  intros Hdec Him Hrgb Hres.
  unfold detect_hands_endpoint. rewrite (detect_hands_decoded _ _ Hdec).
  unfold mbind, outcome_bind. rewrite Him. cbn [Py.bind].
  rewrite Hrgb. cbn [Py.bind]. rewrite Hres. cbn [Py.bind].
  destruct results as [[|h hands]|]; cbn [truthy Py.bind].
  - destruct (imencode img) as [png|[|]]; cbn [Py.bind]; try discriminate.
    intros [= <- <- <- <- <-]. split; reflexivity.
  - change (default [] (Some (h :: hands))) with (h :: hands).
    destruct (annotate_hands (h :: hands) img []) as [[img' l']|[|]] eqn:Ha;
      cbn [Py.bind]; try discriminate.
    destruct (imencode img') as [png|[|]]; cbn [Py.bind]; try discriminate.
    intros [= <- <- <- <- <-].
    apply annotate_hands_list in Ha. now subst l'.
  - destruct (imencode img) as [png|[|]]; cbn [Py.bind]; try discriminate.
    intros [= <- <- <- <- <-]. split; reflexivity.
Qed.

Lemma detect_hands_landmarks_in_order_witness :
  let L := Double.libs [] Double.save_fails in
  let V := VisionDouble.vision in
  let hands := [VisionDouble.two_landmarks; VisionDouble.two_landmarks] in
  exists (a : string),
    @detect_hands_endpoint L V (image_request "//8=") =
      (Hands true 2 (map points_of hands) a, 200%nat) /\
    map points_of hands = map points_of (default [] (Some hands)) /\
    2%nat = length (default [] (Some hands)).
Proof.
  intros L V hands.
  assert (Hdec : @decodes_to L (image_request "//8=") [xff; xff]).
  { split; [vm_compute; reflexivity|].
    exists "//8=", "//8=". repeat split; vm_compute; reflexivity. }
  eexists.
  assert (Hcall : @detect_hands_endpoint L V (image_request "//8=") =
                  (Hands true 2 (map points_of hands) _, 200%nat))
    by (vm_compute; reflexivity).
  split; [exact Hcall|].
  exact (@detect_hands_landmarks_in_order L V _ [xff; xff] [xff; xff]
           [xff; xff] (Some hands) _ _ _ _ _
           Hdec eq_refl eq_refl eq_refl Hcall).
Defined.

(** X16. When the detector reports no hand ([None] or an empty list), the
    handler draws nothing: the response says no hand, zero hands, no
    landmarks, and its annotated image is the PNG encoding of the decoded
    input image. *)
Theorem detect_hands_no_hand `{Libs} `{Vision}
    (data : json_body) (image_bytes : list byte) (img rgb : Mat)
    (results : option (list (list Landmark))) (png : list byte) :
  decodes_to data image_bytes ->
  imdecode image_bytes = Py.Return (Some img) ->
  cvtColor img = Py.Return rgb ->
  hands_process rgb = Py.Return results ->
  results = None \/ results = Some [] ->
  imencode img = Py.Return png ->
  detect_hands_endpoint data =
    (Hands false 0 []
       ("data:image/png;base64," +:+ Base64.b64encode png), 200%nat).
Proof.
  intros Hdec Him Hrgb Hres Hnone Hpng.
  unfold detect_hands_endpoint. rewrite (detect_hands_decoded _ _ Hdec).
  unfold mbind, outcome_bind. rewrite Him. cbn [Py.bind].
  rewrite Hrgb. cbn [Py.bind]. rewrite Hres. cbn [Py.bind].
  destruct Hnone as [-> | ->]; cbn [truthy Py.bind]; now rewrite Hpng.
Qed.

Lemma detect_hands_no_hand_witness :
  let L := Double.libs [] Double.save_fails in
  let V := VisionDouble.vision in
  @detect_hands_endpoint L V (image_request "TUFO") =
    (Hands false 0 []
       ("data:image/png;base64," +:+ Base64.b64encode [x4d; x41; x4e]),
     200%nat).
Proof.
  intros L V.
  assert (Hdec : @decodes_to L (image_request "TUFO") [x4d; x41; x4e]).
  { split; [vm_compute; reflexivity|].
    exists "TUFO", "TUFO". repeat split; vm_compute; reflexivity. }
  exact (@detect_hands_no_hand L V _ [x4d; x41; x4e] [x4d; x41; x4e]
           [x4d; x41; x4e] None [x4d; x41; x4e]
           Hdec eq_refl eq_refl eq_refl (or_introl eq_refl) eq_refl).
Defined.

(** X17. Bytes that decode as base64 but that OpenCV cannot read as an
    image are answered with status 400 and "Could not decode image" (the
    sign handler answers such bytes with its 500 body). *)
Theorem detect_hands_unreadable_image `{Libs} `{Vision}
    (data : json_body) (image_bytes : list byte) :
  decodes_to data image_bytes ->
  imdecode image_bytes = Py.Return None ->
  detect_hands_endpoint data = (HandsError "Could not decode image", 400%nat).
Proof.
  intros Hdec Him.
  unfold detect_hands_endpoint. rewrite (detect_hands_decoded _ _ Hdec).
  unfold mbind, outcome_bind. now rewrite Him.
Qed.

Lemma detect_hands_unreadable_image_witness :
  let L := Double.libs [] Double.save_fails in
  let V := VisionDouble.vision in
  @decodes_to L (image_request "AAAA") [x00; x00; x00] /\
  @detect_hands_endpoint L V (image_request "AAAA") =
    (HandsError "Could not decode image", 400%nat).
Proof.
  intros L V.
  assert (Hdec : @decodes_to L (image_request "AAAA") [x00; x00; x00]).
  { split; [vm_compute; reflexivity|].
    exists "AAAA", "AAAA". repeat split; vm_compute; reflexivity. }
  split; [exact Hdec|].
  exact (@detect_hands_unreadable_image L V _ _ Hdec eq_refl).
Defined.

(** X18. The two image handlers reject the same requests in the same words:
    whenever the sign handler answers with a 400 error, the hand handler
    answers with status 400 and the same error message. *)
Theorem image_handlers_agree_on_400 `{Libs} `{Vision}
    (data : json_body) (msg : string) :
  interpret_sign data = (Error msg, 400%nat) ->
  detect_hands_endpoint data = (HandsError msg, 400%nat).
Proof.
  unfold interpret_sign, interpret_sign_with, interpret_sign_try,
    detect_hands_endpoint, detect_hands_try.
  destruct (lacks data "image"); [now intros [= <-]|].
  unfold mbind, outcome_bind.
  destruct (get_str data "image") as [s|[|]]; cbn [Py.bind];
    [|now intros [= <-] | discriminate].
  destruct (strip_data_url s) as [p|[|]]; cbn [Py.bind];
    [|now intros [= <-] | discriminate].
  destruct (b64decode p) as [bs|[|]]; cbn [Py.bind];
    [|now intros [= <-] | discriminate].
  intros Habs. exfalso.
  destruct (collect bs models []) as [|r rest]; [discriminate Habs|].
  destruct (arbitrate_best (r :: rest)) as (best & _ & _ & Harb);
    [discriminate|].
  rewrite Harb in Habs. discriminate Habs.
Qed.

Lemma image_handlers_agree_on_400_witness :
  let L := Double.libs Double.tie_files Double.save_fails in
  let V := VisionDouble.vision in
  @interpret_sign L (image_request "TUF") =
    (Error "Invalid base64 data", 400%nat) /\
  @detect_hands_endpoint L V (image_request "TUF") =
    (HandsError "Invalid base64 data", 400%nat).
Proof.
  intros L V.
  assert (Hsign : @interpret_sign L (image_request "TUF") =
                  (Error "Invalid base64 data", 400%nat))
    by (vm_compute; reflexivity).
  split; [exact Hsign|].
  exact (@image_handlers_agree_on_400 L V _ _ Hsign).
Defined.
